(** * chalice_spec.chalice_legacy: the route documentation interceptor

    A shallow embedding of [ChalicePlugin] (src/chalice_spec/chalice_legacy.py)
    and the properties of its monkeypatched [route] and [register_blueprint].

    Python objects are modelled as follows.
    - [str] is [string]; method names and paths are ASCII, and [str.lower]
      is the ASCII lower-casing (bytes outside 'A'..'Z' are left alone).
    - a [dict] with string keys ([**kwargs], [spec.options]) is a
      [gmap string value].
    - an exception is an [outcome] of the form [Raise e]; the state reached
      when it was raised is kept, as in Python.
    - the Chalice application, its blueprints and the closures created by
      [init_spec] live in a store of objects indexed by references, so that
      monkeypatching is an update of that store.
    - Chalice, apispec and the descriptor-to-operation conversion are
      external: they are parameters acting on an abstract [World], and every
      call to them is recorded in a trace. *)

From stdpp Require Import gmap strings list fin_maps.
From Stdlib Require Import Ascii String.

Set Warnings "-register-all".
Local Open Scope string_scope.

(** ** Strings *)

Module PyStr.

(** [str.lower] on one ASCII character. *)
Definition lower_ascii (c : ascii) : ascii :=
  let n := nat_of_ascii c in
  if (65 <=? n)%nat && (n <=? 90)%nat then ascii_of_nat (n + 32) else c.

(** [s.lower()] *)
Fixpoint lower (s : string) : string :=
  match s with
  | EmptyString => EmptyString
  | String c s' => String (lower_ascii c) (lower s')
  end.

(** The 1-character strings a [for] loop over a [str] yields. *)
Fixpoint chars (s : string) : list string :=
  match s with
  | EmptyString => []
  | String c s' => String c EmptyString :: chars s'
  end.

(** [s == t] *)
Definition eqb (s t : string) : bool := String.eqb s t.

(** [x in l] for a list of strings. *)
Fixpoint contains (x : string) (l : list string) : bool :=
  match l with
  | [] => false
  | y :: l' => eqb x y || contains x l'
  end.

End PyStr.

(** ** Values *)

Definition loc := nat.

(** [pydantic.BaseModel] and its subclasses, used as schemas. *)
Inductive schema :=
| BaseModel
| Model (name : string).

(** Modelled from the spec: [chalice_spec.docs.Operation] is missing from
    the sources.  The spec describes a descriptor entry as "the expected
    response schema and (optionally) expected request-body schema" of one
    method; [None] is the null schema. *)
Record Operation := mkOperation {
  request : option schema;
  response : option schema
}.

(** Modelled from the spec: [chalice_spec.docs.Docs] is missing from the
    sources.  The spec describes it as "a value object, keyed by lower-cased
    HTTP method name", with a [summary] attribute that is an optional
    string.  Building one from keyword arguments gives the entries and no summary. *)
Record Docs := mkDocs {
  entries : gmap string Operation;
  summary : option string
}.

Definition Docs_of (kw : gmap string Operation) : Docs :=
  {| entries := kw; summary := None |}.

(** The values that occur in keyword options and in [spec.options]. *)
Inductive value :=
| VNone
| VBool (b : bool)
| VStr (s : string)
| VList (l : list value)
| VDocs (d : Docs)
| VRef (l : loc).

Inductive exn :=
| KeyError (key : string)
| TypeError
| AttributeError
| External (code : nat).

Inductive outcome (A : Type) :=
| Ok (a : A)
| Raise (e : exn).
Arguments Ok {A} a.
Arguments Raise {A} e.

Module PyVal.

(** [x is None] *)
Definition is_none (v : value) : bool :=
  match v with VNone => true | _ => false end.

(** [bool(x)]; a [Docs] object, like any plain object, is true. *)
Definition truthy (v : value) : bool :=
  match v with
  | VNone => false
  | VBool b => b
  | VStr s => negb (PyStr.eqb s "")
  | VList l => match l with [] => false | _ => true end
  | VDocs _ => true
  | VRef _ => true
  end.

(** The elements [for x in v] goes through. *)
Definition iter (v : value) : outcome (list value) :=
  match v with
  | VList l => Ok l
  | VStr s => Ok (VStr <$> PyStr.chars s)
  | _ => Raise TypeError
  end.

(** [x.lower()] *)
Definition lower (v : value) : outcome string :=
  match v with
  | VStr s => Ok (PyStr.lower s)
  | _ => Raise AttributeError
  end.

(** [[x.lower() for x in l]] *)
Fixpoint lower_each (l : list value) : outcome (list string) :=
  match l with
  | [] => Ok []
  | x :: l' =>
      match lower x with
      | Ok s => match lower_each l' with
                | Ok r => Ok (s :: r)
                | Raise e => Raise e
                end
      | Raise e => Raise e
      end
  end.

End PyVal.

(** ** Dictionaries *)

Module PyDict.

(** [d.get(key, default)] *)
Definition get {V} (key : string) (default : V) (d : gmap string V) : V :=
  match d !! key with Some v => v | None => default end.

(** [d.pop(key, default)]: the value and the dictionary left. *)
Definition pop_default {V} (key : string) (default : V) (d : gmap string V)
  : V * gmap string V :=
  (get key default d, delete key d).

(** [d.pop(key)]: raises [KeyError] and leaves [d] alone without [key]. *)
Definition pop {V} (key : string) (d : gmap string V)
  : outcome V * gmap string V :=
  match d !! key with
  | Some v => (Ok v, delete key d)
  | None => (Raise (KeyError key), d)
  end.

End PyDict.


(** ** The plugin, its closures and the objects it patches *)

Record ChalicePlugin := mkChalicePlugin {
  _generate_default_docs : bool
}.

(** What the [route] attribute of an application or blueprint can hold:
    the framework's own bound method, the closure [route] of [init_spec]
    (over [self] and [original_route]), or the closure [inner_route] of
    [blueprint_route] (over [prefix_url] and [route]). *)
Inductive route_fn :=
| ChaliceRoute (owner : loc)
| Route (self : ChalicePlugin) (original_route : route_fn)
| InnerRoute (prefix_url : option string) (route : route_fn).

(** What the [register_blueprint] attribute of an application can hold:
    the framework's own bound method, or the closure [register_blueprint]
    of [init_spec] (over [route] and [original_register_blueprint]). *)
Inductive register_blueprint_fn :=
| ChaliceRegisterBlueprint (owner : loc)
| RegisterBlueprint (route : route_fn)
    (original_register_blueprint : register_blueprint_fn).

Inductive object :=
| Chalice (route : route_fn) (register_blueprint : register_blueprint_fn)
| Blueprint (route : route_fn).

(** [route(path, methods=..., docs=...)]: the default-docs dictionary
    [{method: Operation(...) for method in methods}] of lines 54-64. *)
Definition default_operation (method : string) : Operation :=
  {| response := Some BaseModel;
     request := if PyStr.contains method ["get"; "delete"; "head"; "options"]
                then None else Some BaseModel |}.

Definition default_operations (methods : list string) : gmap string Operation :=
  foldl (fun d method => <[method := default_operation method]> d) ∅ methods.

(** Line 50: [[method.lower() for method in kwargs.get("methods", ["get"])]] *)
Definition lower_methods (kwargs : gmap string value) : outcome (list string) :=
  match PyVal.iter (PyDict.get "methods" (VList [VStr "get"]) kwargs) with
  | Ok l => PyVal.lower_each l
  | Raise e => Raise e
  end.

(** [prefix_url + path] with [prefix_url : Optional[str]] *)
Definition str_add (prefix_url : option string) (path : string) : outcome string :=
  match prefix_url with
  | Some p => Ok (p ++ path)
  | None => Raise TypeError
  end.

(** ** The interceptor *)

Section Interceptor.

(** State owned by the external collaborators (the routes Chalice has
    registered, the paths and components apispec has collected), the
    objects the framework calls return, and the operations mapping that
    [Docs.build_operations] returns. *)
Context {World PyObj Ops : Type}.

(** [Chalice.route] and [Chalice.register_blueprint] bound to [owner]. *)
Variable chalice_route :
  loc -> string -> gmap string value -> World -> outcome PyObj * World.
Variable chalice_register_blueprint :
  loc -> loc -> option string -> option string -> World -> outcome PyObj * World.

(** [docs.build_operations(spec, methods)] and
    [spec.path(path, operations=..., summary=...)].  The conversion belongs
    to [chalice_spec.docs], which is not among the sources, and [spec.path]
    to apispec: both are parameters, free to return or to raise. *)
Variable build_operations :
  Docs -> list string -> World -> outcome Ops * World.
Variable spec_path :
  string -> Ops -> option string -> World -> outcome unit * World.

(** The calls made to the external collaborators, with their arguments. *)
Inductive event :=
| BuildOperations (docs : Docs) (methods : list string)
| SpecPath (path : string) (operations : Ops) (summary : option string)
| CallRoute (owner : loc) (path : string) (kwargs : gmap string value)
| CallRegisterBlueprint (owner blueprint : loc)
    (name_prefix url_prefix : option string).

Record state := mkState {
  options : gmap string value;   (* spec.options *)
  heap : gmap loc object;        (* the application and its blueprints *)
  world : World;
  trace : list event
}.

Definition M (A : Type) : Type := state -> outcome A * state.

Definition ret {A} (a : A) : M A := fun st => (Ok a, st).

Definition raise {A} (e : exn) : M A := fun st => (Raise e, st).

Definition bind {A B} (m : M A) (k : A -> M B) : M B :=
  fun st =>
    match m st with
    | (Ok a, st') => k a st'
    | (Raise e, st') => (Raise e, st')
    end.

Definition lift {A} (o : outcome A) : M A := fun st => (o, st).

Local Notation "'let*' x ':=' m 'in' k" := (bind m (fun x => k))
  (at level 10, x name, m at level 100, k at level 200).

Definition log (e : event) : M unit :=
  fun st => (Ok tt, {| options := options st; heap := heap st;
                       world := world st; trace := trace st ++ [e] |}).

Definition extern {A} (f : World -> outcome A * World) : M A :=
  fun st =>
    let '(r, w) := f (world st) in
    (r, {| options := options st; heap := heap st;
           world := w; trace := trace st |}).

(** *** Attribute access on the objects of the store *)

Definition getattr_route (o : value) : M route_fn :=
  fun st =>
    match o with
    | VRef l =>
        match heap st !! l with
        | Some (Chalice r _) | Some (Blueprint r) => (Ok r, st)
        | None => (Raise AttributeError, st)
        end
    | _ => (Raise AttributeError, st)
    end.

Definition getattr_register_blueprint (o : value) : M register_blueprint_fn :=
  fun st =>
    match o with
    | VRef l =>
        match heap st !! l with
        | Some (Chalice _ g) => (Ok g, st)
        | _ => (Raise AttributeError, st)
        end
    | _ => (Raise AttributeError, st)
    end.

Definition set_heap (h : gmap loc object) (st : state) : state :=
  {| options := options st; heap := h; world := world st; trace := trace st |}.

Definition setattr_route (o : value) (f : route_fn) : M unit :=
  fun st =>
    match o with
    | VRef l =>
        match heap st !! l with
        | Some (Chalice _ g) => (Ok tt, set_heap (<[l := Chalice f g]> (heap st)) st)
        | Some (Blueprint _) => (Ok tt, set_heap (<[l := Blueprint f]> (heap st)) st)
        | None => (Raise AttributeError, st)
        end
    | _ => (Raise AttributeError, st)
    end.

Definition setattr_register_blueprint (o : value) (g : register_blueprint_fn)
  : M unit :=
  fun st =>
    match o with
    | VRef l =>
        match heap st !! l with
        | Some (Chalice r _) => (Ok tt, set_heap (<[l := Chalice r g]> (heap st)) st)
        | _ => (Raise AttributeError, st)
        end
    | _ => (Raise AttributeError, st)
    end.

(** *** [route] (lines 42-71) *)

(** Lines 67-69: [docs.build_operations(spec, methods)], then
    [spec.path(path, operations=operations, summary=docs.summary)]. *)
Definition register_docs (path : string) (docs : value) (methods : list string)
  : M unit :=
  match docs with
  | VDocs d =>
      let* _ := log (BuildOperations d methods) in
      let* operations := extern (build_operations d methods) in
      let* _ := log (SpecPath path operations (summary d)) in
      extern (spec_path path operations (summary d))
  | _ => raise AttributeError
  end.

(** Lines 50-69, the documentation side effect: [docs] is the value popped
    from the options and [kwargs] the options left. *)
Definition document (self : ChalicePlugin) (path : string) (docs : value)
    (kwargs : gmap string value) : M unit :=
  let* methods := lift (lower_methods kwargs) in
  let docs :=
    if PyVal.is_none docs && _generate_default_docs self
    then VDocs (Docs_of (default_operations methods))
    else docs in
  if PyVal.truthy docs then register_docs path docs methods else ret tt.

Definition route (self : ChalicePlugin)
    (original_route : string -> gmap string value -> M PyObj)
    (path : string) (kwargs : gmap string value) : M PyObj :=
  let '(docs, kwargs) := PyDict.pop_default "docs" VNone kwargs in
  let* _ := document self path docs kwargs in
  original_route path kwargs.

(** *** [blueprint_route] (lines 73-77) *)

Definition inner_route (route : string -> gmap string value -> M PyObj)
    (prefix_url : option string)
    (path : string) (kwargs : gmap string value) : M PyObj :=
  let* p := lift (str_add prefix_url path) in
  route p kwargs.

(** Calling what a [route] attribute holds. *)
Fixpoint call_route (f : route_fn) (path : string)
    (kwargs : gmap string value) : M PyObj :=
  match f with
  | ChaliceRoute owner =>
      let* _ := log (CallRoute owner path kwargs) in
      extern (chalice_route owner path kwargs)
  | Route self original_route =>
      route self (call_route original_route) path kwargs
  | InnerRoute prefix_url r =>
      inner_route (call_route r) prefix_url path kwargs
  end.

(** *** [register_blueprint] (lines 81-91) *)

Definition register_blueprint (route : route_fn)
    (original_register_blueprint :
       value -> option string -> option string -> M PyObj)
    (blueprint : value) (name_prefix url_prefix : option string) : M PyObj :=
  let* _ := setattr_route blueprint (InnerRoute url_prefix route) in
  original_register_blueprint blueprint name_prefix url_prefix.

Fixpoint call_register_blueprint (g : register_blueprint_fn)
    (blueprint : value) (name_prefix url_prefix : option string) : M PyObj :=
  match g with
  | ChaliceRegisterBlueprint owner =>
      match blueprint with
      | VRef b =>
          let* _ := log (CallRegisterBlueprint owner b name_prefix url_prefix) in
          extern (chalice_register_blueprint owner b name_prefix url_prefix)
      | _ => raise AttributeError
      end
  | RegisterBlueprint r original_register_blueprint =>
      register_blueprint r (call_register_blueprint original_register_blueprint)
        blueprint name_prefix url_prefix
  end.

(** *** [init_spec] (lines 30-94) *)

Definition pop_option (key : string) : M value :=
  fun st =>
    let '(r, d) := PyDict.pop key (options st) in
    (r, {| options := d; heap := heap st; world := world st; trace := trace st |}).

Definition init_spec (self : ChalicePlugin) : M unit :=
  let* chalice_app := pop_option "chalice_app" in
  let* original_route := getattr_route chalice_app in
  let* original_register_blueprint := getattr_register_blueprint chalice_app in
  let* _ := setattr_route chalice_app (Route self original_route) in
  setattr_register_blueprint chalice_app
    (RegisterBlueprint (Route self original_route) original_register_blueprint).

(** [obj.route(path, **kwargs)] and [obj.register_blueprint(...)] as the
    host application writes them. *)
Definition invoke_route (o : value) (path : string)
    (kwargs : gmap string value) : M PyObj :=
  let* f := getattr_route o in
  call_route f path kwargs.

Definition invoke_register_blueprint (o : value) (blueprint : value)
    (name_prefix url_prefix : option string) : M PyObj :=
  let* g := getattr_register_blueprint o in
  call_register_blueprint g blueprint name_prefix url_prefix.

End Interceptor.

Arguments mkState {World Ops} _ _ _ _.
Arguments BuildOperations {Ops} _ _.
Arguments SpecPath {Ops} _ _ _.
Arguments CallRoute {Ops} _ _ _.
Arguments CallRegisterBlueprint {Ops} _ _ _ _.

(** ** Reading a trace *)

(** The entries [spec.path] has received. *)
Definition spec_entries {Ops} (t : list (event (Ops := Ops)))
  : list (string * Ops * option string) :=
  omap (fun e => match e with
                 | SpecPath p ops s => Some (p, ops, s)
                 | _ => None
                 end) t.

(** The calls Chalice's own [route] has received. *)
Definition route_calls {Ops} (t : list (event (Ops := Ops)))
  : list (loc * string * gmap string value) :=
  omap (fun e => match e with
                 | CallRoute o p kw => Some (o, p, kw)
                 | _ => None
                 end) t.

(** The events recorded between two states. *)
Definition new_events {World Ops} (st st' : state (World := World) (Ops := Ops))
  : list event :=
  drop (List.length (trace st)) (trace st').

(** The calls one run of lines 50-69 can make: none, the conversion alone
    (when it raises), or the conversion and then [spec.path]. *)
Inductive doc_events {Ops} (path : string) (methods : list string)
  : list (event (Ops := Ops)) -> Prop :=
| doc_events_none : doc_events path methods []
| doc_events_build d : doc_events path methods [BuildOperations d methods]
| doc_events_path d ops :
    doc_events path methods
      [BuildOperations d methods; SpecPath path ops (summary d)].

(** The methods a registration call declares: the [methods] option, or
    [["get"]] without one. *)
Definition declares (kwargs : gmap string value) (methods : list string) : Prop :=
  PyDict.get "methods" (VList [VStr "get"]) kwargs = VList (VStr <$> methods).

(** [hasattr(v, "build_operations")]: of the values of the model, only a
    descriptor has the method. *)
Definition has_build_operations (v : value) : bool :=
  match v with VDocs _ => true | _ => false end.

(** ** A small host application

    Collaborators that always succeed, used to run the interceptor on
    concrete calls: the framework returns the path it registered, the
    conversion returns the methods it was asked about. *)

Module Demo.

Definition chalice_route (owner : loc) (path : string)
    (kwargs : gmap string value) (w : unit) : outcome string * unit :=
  (Ok path, w).

Definition chalice_register_blueprint (owner blueprint : loc)
    (name_prefix url_prefix : option string) (w : unit)
  : outcome string * unit :=
  (Ok "", w).

Definition build_operations (d : Docs) (methods : list string) (w : unit)
  : outcome (list string) * unit :=
  (Ok methods, w).

Definition spec_path (path : string) (operations : list string)
    (summary : option string) (w : unit) : outcome unit * unit :=
  (Ok tt, w).

(** An application at reference 0 and a blueprint at reference 1, both
    with the framework's own methods; [spec.options] holds the
    application. *)
Definition app : loc := 0.
Definition bp : loc := 1.

Definition start : state (World := unit) (Ops := list string) :=
  {| options := {["chalice_app" := VRef app]};
     heap := {[app := Chalice (ChaliceRoute app) (ChaliceRegisterBlueprint app);
               bp := Blueprint (ChaliceRoute bp)]};
     world := tt;
     trace := [] |}.

Definition plugin (defaults : bool) : ChalicePlugin :=
  {| _generate_default_docs := defaults |}.

Definition call_route :=
  call_route chalice_route build_operations spec_path.
Definition init_spec := init_spec (World := unit) (Ops := list string).
Definition invoke_route :=
  invoke_route chalice_route build_operations spec_path.
Definition invoke_register_blueprint :=
  invoke_register_blueprint (World := unit) (Ops := list string)
    chalice_register_blueprint.

Definition post_docs : Docs :=
  {| entries := {["post" := {| request := Some (Model "Item");
                               response := Some (Model "Item") |}]};
     summary := Some "Create an item" |}.

(** The intercepted [route] and [register_blueprint] that [init_spec]
    installs on the application. *)
Definition app_route (defaults : bool) : route_fn :=
  Route (plugin defaults) (ChaliceRoute app).

Definition app_register_blueprint (defaults : bool) : register_blueprint_fn :=
  RegisterBlueprint (app_route defaults) (ChaliceRegisterBlueprint app).

Definition installed (defaults : bool) : state :=
  snd (init_spec (plugin defaults) start).

(** [methods=["POST", "Get"]] and [methods=["post"], docs=post_docs]. *)
Definition mixed_case : gmap string value :=
  {["methods" := VList [VStr "POST"; VStr "Get"]]}.

Definition with_docs : gmap string value :=
  <["docs" := VDocs post_docs]> {["methods" := VList [VStr "post"]]}.

(** The application before [spec.options] was given the reference. *)
Definition unconfigured : state (World := unit) (Ops := list string) :=
  {| options := ∅; heap := heap start; world := tt; trace := [] |}.

(** The blueprint registered on the installed application, with and
    without a URL prefix. *)
Definition registered (url_prefix : option string) : state :=
  snd (call_register_blueprint chalice_register_blueprint
         (app_register_blueprint true) (VRef bp) None url_prefix
         (installed true)).

(** [spec.options] holding the blueprint where the application belongs. *)
Definition misconfigured : state (World := unit) (Ops := list string) :=
  {| options := {["chalice_app" := VRef bp; "title" := VStr "API"]};
     heap := heap start; world := tt; trace := [] |}.

(** The same plugin installed a second time over its own interceptor. *)
Definition twice_route (inner outer : bool) : route_fn :=
  Route (plugin outer) (app_route inner).

(** Descriptors and methods a caller can get wrong: [docs=False],
    [docs="post"], [methods=None], [methods="GET"],
    [methods=["GET", None]], and no option at all. *)
Definition opt_out : gmap string value := <["docs" := VBool false]> mixed_case.
Definition string_docs : gmap string value := <["docs" := VStr "post"]> mixed_case.
Definition none_methods : gmap string value := {["methods" := VNone]}.
Definition string_methods : gmap string value := {["methods" := VStr "GET"]}.
Definition no_options : gmap string value := ∅.

(** A [spec.path] and a framework [route] that fail. *)
Definition failing_spec_path (path : string) (operations : list string)
    (summary : option string) (w : unit) : outcome unit * unit :=
  (Raise (External 2), w).

Definition failing_chalice_route (owner : loc) (path : string)
    (kwargs : gmap string value) (w : unit) : outcome string * unit :=
  (Raise (External 3), w).

(** A conversion that fails. *)
Definition failing_build_operations (d : Docs) (methods : list string) (w : unit)
  : outcome (list string) * unit :=
  (Raise (External 1), w).

End Demo.

(** ** Properties *)

Lemma lower_ascii_idemp c : PyStr.lower_ascii (PyStr.lower_ascii c) = PyStr.lower_ascii c.
Proof. destruct c as [[] [] [] [] [] [] [] []]; reflexivity. Qed.

Lemma lower_idemp s : PyStr.lower (PyStr.lower s) = PyStr.lower s.
Proof.
  induction s as [|c s IH]; simpl; [reflexivity|].
  now rewrite lower_ascii_idemp, IH.
Qed.

Lemma lower_each_strings (ms : list string) :
  PyVal.lower_each (VStr <$> ms) = Ok (PyStr.lower <$> ms).
Proof.
  induction ms as [|m ms IH]; [reflexivity|].
  rewrite !fmap_cons. simpl. now rewrite IH.
Qed.

Lemma declares_lower_methods kwargs ms :
  declares kwargs ms -> lower_methods kwargs = Ok (PyStr.lower <$> ms).
Proof.
  unfold declares, lower_methods. intros ->. simpl.
  apply lower_each_strings.
Qed.

Lemma contains_elem_of x l : PyStr.contains x l = true <-> x ∈ l.
Proof.
  induction l as [|y l IH]; simpl.
  - split; [discriminate | intros H; inversion H].
  - rewrite orb_true_iff, IH, elem_of_cons. unfold PyStr.eqb.
    rewrite String.eqb_eq. reflexivity.
Qed.

Lemma default_operations_lookup methods k :
  default_operations methods !! k =
    if decide (k ∈ methods) then Some (default_operation k) else None.
Proof.
  unfold default_operations.
  assert (G : forall d : gmap string Operation,
    foldl (fun d m => <[m := default_operation m]> d) d methods !! k =
      if decide (k ∈ methods) then Some (default_operation k) else d !! k).
  { induction methods as [|m methods IH]; intros d; simpl.
    - destruct (decide (k ∈ [])) as [H|H]; [inversion H | reflexivity].
    - rewrite IH. destruct (decide (k ∈ methods)) as [Hin|Hin].
      + rewrite decide_True by (right; exact Hin). reflexivity.
      + destruct (decide (k = m)) as [->|Hne].
        * rewrite decide_True by left. apply lookup_insert_eq.
        * rewrite decide_False by (rewrite elem_of_cons; tauto).
          now apply lookup_insert_ne. }
  rewrite G. destruct (decide (k ∈ methods)); [reflexivity | apply lookup_empty].
Qed.

Lemma new_events_app {World Ops} (st st' : state (World := World) (Ops := Ops)) evs :
  trace st' = (trace st ++ evs)%list -> new_events st st' = evs.
Proof. unfold new_events. intros ->. apply drop_app_length. Qed.

Section Properties.

Set Default Proof Using "Type".

Context {World PyObj Ops : Type}.
Variable chalice_route :
  loc -> string -> gmap string value -> World -> outcome PyObj * World.
Variable chalice_register_blueprint :
  loc -> loc -> option string -> option string -> World -> outcome PyObj * World.
Variable build_operations :
  Docs -> list string -> World -> outcome Ops * World.
Variable spec_path :
  string -> Ops -> option string -> World -> outcome unit * World.

Ltac run := unfold bind, lift, log, extern, ret, raise; simpl.
Ltac open_document := unfold document.
Ltac open_register_docs := unfold register_docs.
Ltac open_init_spec :=
  unfold init_spec, pop_option, getattr_route, getattr_register_blueprint,
    setattr_route, setattr_register_blueprint, set_heap, bind, PyDict.pop.
Ltac open_register_blueprint :=
  unfold register_blueprint, setattr_route, set_heap, bind, log, extern.
Ltac open_invoke_route :=
  unfold invoke_route, getattr_route, inner_route, str_add, bind, lift.

Local Abbreviation state := (state (World := World) (Ops := Ops)).
Local Abbreviation document := (document build_operations spec_path).
Local Abbreviation register_docs := (register_docs build_operations spec_path).
Local Abbreviation call_route :=
  (call_route chalice_route build_operations spec_path).
Local Abbreviation call_register_blueprint :=
  (call_register_blueprint chalice_register_blueprint).
Local Abbreviation invoke_route :=
  (invoke_route chalice_route build_operations spec_path).
Local Abbreviation invoke_register_blueprint :=
  (invoke_register_blueprint chalice_register_blueprint).

(** *** The documentation stage *)

Lemma register_docs_events path d ms (st : state) :
  exists evs w r,
    register_docs path (VDocs d) ms st =
      (r, mkState (options st) (heap st) w (trace st ++ evs)) /\
    doc_events path ms evs /\
    exists rest, evs = BuildOperations d ms :: rest.
Proof.
  open_register_docs. run.
  destruct (build_operations d ms (world st)) as [[ops|e] w] eqn:Hb; simpl.
  - destruct (spec_path path ops (summary d) w) as [r w'] eqn:Hp.
    exists [BuildOperations d ms; SpecPath path ops (summary d)], w', r.
    rewrite <- app_assoc. simpl. repeat split; [constructor | eauto].
  - exists [BuildOperations d ms], w, (Raise e).
    repeat split; [constructor | eauto].
Qed.

Lemma document_events self path docs kw (st : state) :
  exists evs w r,
    document self path docs kw st =
      (r, mkState (options st) (heap st) w (trace st ++ evs)) /\
    match lower_methods kw with
    | Ok ms => doc_events path ms evs
    | Raise _ => evs = []
    end.
Proof.
  assert (Hst : forall (r : outcome unit), (r, st) =
    (r, mkState (options st) (heap st) (world st) (trace st ++ []))).
  { intros r. rewrite app_nil_r. now destruct st. }
  open_document. run.
  destruct (lower_methods kw) as [ms|e]; simpl.
  2: { exists [], (world st), (Raise e). split; [apply Hst | reflexivity]. }
  set (docs' := if PyVal.is_none docs && _generate_default_docs self
                then _ else _).
  destruct (PyVal.truthy docs') eqn:Ht.
  2: { exists [], (world st), (Ok tt). split; [apply Hst | constructor]. }
  destruct docs' as [| | | |d|] eqn:Hd;
    try (exists [], (world st), (Raise AttributeError);
         split; [apply Hst | constructor]).
  destruct (register_docs_events path d ms st) as (evs & w & r & H1 & H2 & _).
  exists evs, w, r. split; assumption.
Qed.

Lemma doc_events_no_route_calls path ms (evs : list (event (Ops := Ops))) :
  doc_events path ms evs -> route_calls evs = [].
Proof. now destruct 1. Qed.

Lemma document_no_route_calls self path docs kw (st : state) :
  route_calls (new_events st (snd (document self path docs kw st))) = [].
Proof.
  destruct (document_events self path docs kw st) as (evs & w & r & -> & H).
  simpl. erewrite new_events_app by reflexivity.
  destruct (lower_methods kw); [|now subst].
  eapply doc_events_no_route_calls, H.
Qed.

(** *** [route] *)

Lemma call_route_chalice owner path kwargs (st : state) :
  call_route (ChaliceRoute owner) path kwargs st =
    (fst (chalice_route owner path kwargs (world st)),
     mkState (options st) (heap st)
       (snd (chalice_route owner path kwargs (world st)))
       (trace st ++ [CallRoute owner path kwargs])).
Proof. simpl. run. now destruct chalice_route. Qed.

Lemma call_route_Route self orig path kwargs (st : state) :
  call_route (Route self orig) path kwargs st =
    match document self path (PyDict.get "docs" VNone kwargs)
            (delete "docs" kwargs) st with
    | (Ok _, st1) => call_route orig path (delete "docs" kwargs) st1
    | (Raise e, st1) => (Raise e, st1)
    end.
Proof. reflexivity. Qed.

Lemma methods_after_pop (kwargs : gmap string value) :
  delete "docs" kwargs !! "methods" = kwargs !! "methods".
Proof. now apply lookup_delete_ne. Qed.

Lemma lower_methods_after_pop kwargs :
  lower_methods (delete "docs" kwargs) = lower_methods kwargs.
Proof.
  unfold lower_methods, PyDict.get. now rewrite methods_after_pop.
Qed.

(** The calls of one intercepted registration: those of the documentation
    stage and, unless that stage raised, one call of the original. *)
Lemma route_events self owner path kwargs (st : state) :
  exists evs w r,
    document self path (PyDict.get "docs" VNone kwargs)
      (delete "docs" kwargs) st =
      (r, mkState (options st) (heap st) w (trace st ++ evs)) /\
    match lower_methods kwargs with
    | Ok ms => doc_events path ms evs
    | Raise _ => evs = []
    end /\
    new_events st
      (snd (call_route (Route self (ChaliceRoute owner)) path kwargs st)) =
      match r with
      | Ok _ => (evs ++ [CallRoute owner path (delete "docs" kwargs)])%list
      | Raise _ => evs
      end.
Proof.
  destruct (document_events self path (PyDict.get "docs" VNone kwargs)
    (delete "docs" kwargs) st) as (evs & w & r & Hev & Hshape).
  rewrite lower_methods_after_pop in Hshape.
  exists evs, w, r. repeat split; [exact Hev | exact Hshape |].
  rewrite call_route_Route, Hev. destruct r as [[]|e].
  - rewrite call_route_chalice. simpl. apply new_events_app. simpl.
    now rewrite app_assoc.
  - now apply new_events_app.
Qed.

Lemma route_events_completed self owner path kwargs (st st1 : state) :
  document self path (PyDict.get "docs" VNone kwargs)
    (delete "docs" kwargs) st = (Ok tt, st1) ->
  new_events st
    (snd (call_route (Route self (ChaliceRoute owner)) path kwargs st)) =
    (new_events st st1 ++ [CallRoute owner path (delete "docs" kwargs)])%list /\
  route_calls (new_events st st1) = [].
Proof.
  intros Hdoc.
  destruct (route_events self owner path kwargs st)
    as (evs & w & r & Hev & Hshape & Hnew).
  rewrite Hdoc in Hev. injection Hev as <- ->.
  rewrite Hnew. erewrite (new_events_app st) by reflexivity.
  split; [reflexivity|].
  destruct (lower_methods kwargs); [|now subst].
  eapply doc_events_no_route_calls, Hshape.
Qed.

(** C1: on every intercepted registration call whose documentation stage
    (lines 50-69) has been performed, with a descriptor present, absent or
    synthesized, Chalice's original [route] is invoked exactly once, as
    the last call made: every call of the documentation stage comes
    before it and none of them is a call of the original. *)
Theorem route_calls_original_once self owner path kwargs (st st1 : state) :
  document self path (PyDict.get "docs" VNone kwargs)
    (delete "docs" kwargs) st = (Ok tt, st1) ->
  let st2 := snd (call_route (Route self (ChaliceRoute owner)) path kwargs st) in
  new_events st st2 =
    (new_events st st1 ++ [CallRoute owner path (delete "docs" kwargs)])%list /\
  route_calls (new_events st st1) = [] /\
  route_calls (new_events st st2) = [(owner, path, delete "docs" kwargs)].
Proof.
  intros Hdoc st2.
  destruct (route_events_completed self owner path kwargs st st1 Hdoc)
    as [Hnew Hno].
  subst st2. rewrite Hnew. repeat split; [exact Hno|].
  unfold route_calls in *. rewrite omap_app, Hno. reflexivity.
Qed.

(** C2: the value the intercepted [route] returns is the value the
    original route function returns for the same path and the options
    without [docs]; once the documentation stage has been performed, the
    whole outcome of the intercepted call is that of the original. *)
Theorem route_returns_original_result self orig path kwargs (st : state) :
  (forall v st2,
     call_route (Route self orig) path kwargs st = (Ok v, st2) ->
     exists st1,
       document self path (PyDict.get "docs" VNone kwargs)
         (delete "docs" kwargs) st = (Ok tt, st1) /\
       call_route orig path (delete "docs" kwargs) st1 = (Ok v, st2)) /\
  (forall st1,
     document self path (PyDict.get "docs" VNone kwargs)
       (delete "docs" kwargs) st = (Ok tt, st1) ->
     call_route (Route self orig) path kwargs st =
       call_route orig path (delete "docs" kwargs) st1).
Proof.
  split.
  - intros v st2. rewrite call_route_Route.
    destruct document as [[[]|e] st1]; [|discriminate].
    intros H. exists st1. split; [reflexivity | exact H].
  - intros st1 H. now rewrite call_route_Route, H.
Qed.

Lemma route_calls_cases self owner path kwargs (st : state) :
  let st2 := snd (call_route (Route self (ChaliceRoute owner)) path kwargs st) in
  route_calls (new_events st st2) = [] \/
  route_calls (new_events st st2) = [(owner, path, delete "docs" kwargs)].
Proof.
  intros st2.
  destruct (route_events self owner path kwargs st)
    as (evs & w & r & _ & Hshape & Hnew).
  assert (Hno : route_calls evs = []).
  { destruct (lower_methods kwargs); [|now subst].
    eapply doc_events_no_route_calls, Hshape. }
  subst st2. rewrite Hnew. destruct r; [right | left; exact Hno].
  unfold route_calls in *. rewrite omap_app, Hno. reflexivity.
Qed.

(** C6: whatever the intercepted [route] forwards to Chalice's original
    [route], it forwards without the reserved key [docs] and with every
    other option as it was supplied; and it does forward once the
    documentation stage has been performed. *)
Theorem route_strips_docs self owner path kwargs (st : state) :
  let st2 := snd (call_route (Route self (ChaliceRoute owner)) path kwargs st) in
  (forall o p kw,
     (o, p, kw) ∈ route_calls (new_events st st2) ->
     p = path /\
     kw !! "docs" = None /\
     forall k, k <> "docs" -> kw !! k = kwargs !! k) /\
  (forall st1,
     document self path (PyDict.get "docs" VNone kwargs)
       (delete "docs" kwargs) st = (Ok tt, st1) ->
     exists kw, route_calls (new_events st st2) = [(owner, path, kw)]).
Proof.
  intros st2. split.
  - intros o p kw Hin.
    destruct (route_calls_cases self owner path kwargs st) as [H|H];
      fold st2 in H; rewrite H in Hin.
    + now apply elem_of_nil in Hin.
    + apply list_elem_of_singleton in Hin. injection Hin as -> -> ->.
      repeat split.
      * apply lookup_delete_eq.
      * intros k Hk. now apply lookup_delete_ne.
  - intros st1 Hdoc.
    destruct (route_events_completed self owner path kwargs st st1 Hdoc)
      as [Hnew Hno].
    exists (delete "docs" kwargs). subst st2. rewrite Hnew.
    unfold route_calls in *. rewrite omap_app, Hno. reflexivity.
Qed.

(** C9: lower-casing touches the documentation side only.  The conversion
    is asked about the lower-cased methods, while the [methods] option that
    reaches Chalice's original [route] is the very value supplied, in its
    order and casing. *)
Theorem route_forwards_methods_as_given self owner path kwargs ms (st : state) :
  kwargs !! "methods" = Some (VList (VStr <$> ms)) ->
  let st2 := snd (call_route (Route self (ChaliceRoute owner)) path kwargs st) in
  (forall o p kw,
     (o, p, kw) ∈ route_calls (new_events st st2) ->
     kw !! "methods" = Some (VList (VStr <$> ms))) /\
  (forall d ms',
     BuildOperations d ms' ∈ new_events st st2 -> ms' = PyStr.lower <$> ms) /\
  (forall st1,
     document self path (PyDict.get "docs" VNone kwargs)
       (delete "docs" kwargs) st = (Ok tt, st1) ->
     exists kw,
       route_calls (new_events st st2) = [(owner, path, kw)] /\
       kw !! "methods" = Some (VList (VStr <$> ms))).
Proof.
  intros Hms st2.
  assert (Hdecl : lower_methods kwargs = Ok (PyStr.lower <$> ms)).
  { apply declares_lower_methods. unfold declares, PyDict.get. now rewrite Hms. }
  split; [|split].
  - intros o p kw Hin.
    destruct (route_calls_cases self owner path kwargs st) as [H|H];
      fold st2 in H; rewrite H in Hin.
    + now apply elem_of_nil in Hin.
    + apply list_elem_of_singleton in Hin. injection Hin as -> -> ->.
      now rewrite methods_after_pop.
  - intros d ms' Hin.
    destruct (route_events self owner path kwargs st)
      as (evs & w & r & _ & Hshape & Hnew).
    fold st2 in Hnew. rewrite Hnew in Hin. rewrite Hdecl in Hshape.
    assert (Hevs : BuildOperations d ms' ∈ evs).
    { destruct r; [|exact Hin].
      apply elem_of_app in Hin as [Hin|Hin]; [exact Hin|].
      apply list_elem_of_singleton in Hin. discriminate. }
    destruct Hshape.
    + now apply elem_of_nil in Hevs.
    + apply list_elem_of_singleton in Hevs. now injection Hevs.
    + apply elem_of_cons in Hevs as [Hevs|Hevs]; [now injection Hevs|].
      apply list_elem_of_singleton in Hevs. discriminate.
  - intros st1 Hdoc.
    destruct (route_events_completed self owner path kwargs st st1 Hdoc)
      as [Hnew Hno].
    exists (delete "docs" kwargs). subst st2. rewrite Hnew. split.
    + unfold route_calls in *. rewrite omap_app, Hno. reflexivity.
    + now rewrite methods_after_pop.
Qed.

(** C8: a registration call without a descriptor, with default docs
    disabled, makes one call only, that of Chalice's original [route] with
    the path and the very options supplied, in the world as it was: the
    spec-building object is not called and receives no entry. *)
Theorem route_without_docs self owner path kwargs ms (st : state) :
  _generate_default_docs self = false ->
  kwargs !! "docs" = None ->
  declares kwargs ms ->
  let st2 := snd (call_route (Route self (ChaliceRoute owner)) path kwargs st) in
  call_route (Route self (ChaliceRoute owner)) path kwargs st =
    (fst (chalice_route owner path kwargs (world st)),
     mkState (options st) (heap st)
       (snd (chalice_route owner path kwargs (world st)))
       (trace st ++ [CallRoute owner path kwargs])) /\
  new_events st st2 = [CallRoute owner path kwargs] /\
  spec_entries (new_events st st2) = [] /\
  route_calls (new_events st st2) = [(owner, path, kwargs)].
Proof.
  intros Hflag Hdocs Hdecl st2.
  assert (Hrun : call_route (Route self (ChaliceRoute owner)) path kwargs st =
    (fst (chalice_route owner path kwargs (world st)),
     mkState (options st) (heap st)
       (snd (chalice_route owner path kwargs (world st)))
       (trace st ++ [CallRoute owner path kwargs]))).
  { rewrite call_route_Route, (delete_id _ _ Hdocs), <- call_route_chalice.
    open_document. unfold bind, lift.
    rewrite (declares_lower_methods _ _ Hdecl).
    unfold PyDict.get. rewrite Hdocs, Hflag. reflexivity. }
  assert (Hnew : new_events st st2 = [CallRoute owner path kwargs]).
  { subst st2. rewrite Hrun. now apply new_events_app. }
  rewrite Hnew. repeat split; exact Hrun.
Qed.

(** The documentation stage is performed, whether the descriptor is
    present, absent or synthesized, on every call whose methods are a list
    of strings, as long as the conversion and [spec.path] return. *)
Lemma document_completes self path docs kw ms (st : state) :
  declares kw ms ->
  docs = VNone \/ (exists d, docs = VDocs d) ->
  (forall d ms w, exists ops w', build_operations d ms w = (Ok ops, w')) ->
  (forall p ops s w, exists w', spec_path p ops s w = (Ok tt, w')) ->
  exists st1, document self path docs kw st = (Ok tt, st1).
Proof.
  intros Hdecl Hdocs Hbuild Hpath.
  assert (Hreg : forall d, exists st1,
    register_docs path (VDocs d) (PyStr.lower <$> ms) st = (Ok tt, st1)).
  { intros d. open_register_docs. run.
    destruct (Hbuild d (PyStr.lower <$> ms) (world st)) as (ops & w & ->).
    simpl. destruct (Hpath path ops (summary d) w) as (w' & ->). eauto. }
  open_document. unfold bind, lift.
  rewrite (declares_lower_methods _ _ Hdecl).
  destruct Hdocs as [->|[d ->]]; simpl.
  - destruct (_generate_default_docs self); simpl; [apply Hreg|].
    unfold ret. eauto.
  - apply Hreg.
Qed.

(** *** Default docs and method normalization *)

Lemma document_default self path kw ms (st : state) :
  _generate_default_docs self = true ->
  declares kw ms ->
  document self path VNone kw st =
    register_docs path
      (VDocs (Docs_of (default_operations (PyStr.lower <$> ms))))
      (PyStr.lower <$> ms) st.
Proof.
  intros Hflag Hdecl. open_document. unfold bind, lift.
  rewrite (declares_lower_methods _ _ Hdecl), Hflag. reflexivity.
Qed.

Lemma declares_after_pop kwargs ms :
  declares kwargs ms -> declares (delete "docs" kwargs) ms.
Proof. unfold declares, PyDict.get. now rewrite methods_after_pop. Qed.

(** C5: with default docs enabled and no descriptor supplied, the
    descriptor handed to the conversion is keyed by the lower-cased
    declared methods; each entry has the placeholder [BaseModel] as
    response, a null request exactly when the lower-cased method is one of
    get, delete, head, options, and the placeholder as request otherwise. *)
Theorem default_docs_requests self owner path kwargs ms (st : state) :
  _generate_default_docs self = true ->
  PyDict.get "docs" VNone kwargs = VNone ->
  declares kwargs ms ->
  let st2 := snd (call_route (Route self (ChaliceRoute owner)) path kwargs st) in
  exists d rest,
    new_events st st2 = BuildOperations d (PyStr.lower <$> ms) :: rest /\
    (forall k, is_Some (entries d !! k) <-> k ∈ PyStr.lower <$> ms) /\
    (forall m, m ∈ ms ->
       exists op,
         entries d !! PyStr.lower m = Some op /\
         response op = Some BaseModel /\
         (request op = None <->
            PyStr.lower m ∈ ["get"; "delete"; "head"; "options"]) /\
         (PyStr.lower m ∉ ["get"; "delete"; "head"; "options"] ->
            request op = Some BaseModel)).
Proof.
  clear chalice_register_blueprint.
  intros Hflag Hdocs Hdecl st2.
  set (d := Docs_of (default_operations (PyStr.lower <$> ms))).
  destruct (route_events self owner path kwargs st)
    as (evs & w & r & Hev & _ & Hnew).
  rewrite Hdocs, (document_default _ _ _ ms _ Hflag (declares_after_pop _ _ Hdecl))
    in Hev.
  destruct (register_docs_events path d (PyStr.lower <$> ms) st)
    as (evs' & w' & r' & Hev' & _ & rest & Hrest).
  fold d in Hev. rewrite Hev' in Hev. injection Hev as _ _ Hevs.
  apply app_inv_head in Hevs. subst evs' evs.
  exists d, (match r with
             | Ok _ => rest ++ [CallRoute owner path (delete "docs" kwargs)]
             | Raise _ => rest
             end)%list.
  split; [subst st2; rewrite Hnew; now destruct r|].
  split.
  - intros k. simpl. rewrite default_operations_lookup.
    destruct (decide (k ∈ PyStr.lower <$> ms)) as [Hin|Hin].
    + split; [auto | eauto].
    + split; [intros [? ?]; discriminate | tauto].
  - intros m Hm. exists (default_operation (PyStr.lower m)).
    split; [|split; [reflexivity|]].
    + simpl. rewrite default_operations_lookup, decide_True; [reflexivity|].
      apply list_elem_of_fmap. eauto.
    + unfold default_operation. cbn [request].
      destruct (PyStr.contains (PyStr.lower m)
                  ["get"; "delete"; "head"; "options"]) eqn:Hc.
      * apply contains_elem_of in Hc.
        split; [split; [intros _; exact Hc | reflexivity]|].
        intros Hn. destruct (Hn Hc).
      * assert (Hn : PyStr.lower m ∉ ["get"; "delete"; "head"; "options"]).
        { rewrite <- contains_elem_of, Hc. discriminate. }
        split; [|auto]. split; [discriminate | tauto].
Qed.

Lemma document_methods self path docs kw1 kw2 (st : state) :
  lower_methods kw1 = lower_methods kw2 ->
  document self path docs kw1 st = document self path docs kw2 st.
Proof. intros H. open_document. now rewrite H. Qed.

Lemma spec_entries_app (t1 t2 : list (event (Ops := Ops))) :
  spec_entries (t1 ++ t2) = (spec_entries t1 ++ spec_entries t2)%list.
Proof. apply omap_app. Qed.

Lemma route_spec_entries self owner path kwargs (st : state) :
  spec_entries
    (trace (snd (call_route (Route self (ChaliceRoute owner)) path kwargs st))) =
  spec_entries
    (trace (snd (document self path (PyDict.get "docs" VNone kwargs)
                   (delete "docs" kwargs) st))).
Proof.
  rewrite call_route_Route.
  destruct document as [[[]|e] st1]; [|reflexivity].
  rewrite call_route_chalice. simpl.
  rewrite spec_entries_app. simpl. apply app_nil_r.
Qed.

(** C7: method normalization is idempotent, and it is all the
    documentation stage sees of the methods: two registration calls that
    differ in the casing of their methods only run the same documentation
    stage, to the same state, and leave the same entries in the
    spec-building object. *)
Theorem methods_case_insensitive self owner path kw ms1 ms2 (st : state) :
  PyStr.lower <$> ms1 = PyStr.lower <$> ms2 ->
  let kw1 := <["methods" := VList (VStr <$> ms1)]> kw in
  let kw2 := <["methods" := VList (VStr <$> ms2)]> kw in
  PyStr.lower <$> (PyStr.lower <$> ms1) = PyStr.lower <$> ms1 /\
  document self path (PyDict.get "docs" VNone kw1) (delete "docs" kw1) st =
    document self path (PyDict.get "docs" VNone kw2) (delete "docs" kw2) st /\
  spec_entries
    (trace (snd (call_route (Route self (ChaliceRoute owner)) path kw1 st))) =
  spec_entries
    (trace (snd (call_route (Route self (ChaliceRoute owner)) path kw2 st))).
Proof.
  intros Hcase kw1 kw2.
  assert (Hdoc :
    document self path (PyDict.get "docs" VNone kw1) (delete "docs" kw1) st =
    document self path (PyDict.get "docs" VNone kw2) (delete "docs" kw2) st).
  { assert (Hd : PyDict.get "docs" VNone kw1 = PyDict.get "docs" VNone kw2).
    { unfold PyDict.get, kw1, kw2. now rewrite !lookup_insert_ne. }
    rewrite Hd. apply document_methods.
    rewrite !lower_methods_after_pop.
    rewrite (declares_lower_methods kw1 ms1), (declares_lower_methods kw2 ms2).
    - now rewrite Hcase.
    - unfold declares, PyDict.get, kw2. now rewrite lookup_insert_eq.
    - unfold declares, PyDict.get, kw1. now rewrite lookup_insert_eq. }
  split; [|split].
  - rewrite <- list_fmap_compose. apply list_fmap_ext.
    intros _ m _. apply lower_idemp.
  - exact Hdoc.
  - now rewrite !route_spec_entries, Hdoc.
Qed.

(** *** Installation *)

(** C4: without the application reference in [spec.options], [init_spec]
    raises [KeyError] and leaves the whole state, the application object
    included, as it was; with the reference, it patches the two methods of
    the application and removes the reference from the options, so that it
    cannot be consumed a second time. *)
Theorem init_spec_consumes_app self (st : state) :
  (options st !! "chalice_app" = None ->
   init_spec self st = (Raise (KeyError "chalice_app"), st)) /\
  (forall l r g,
     options st !! "chalice_app" = Some (VRef l) ->
     heap st !! l = Some (Chalice r g) ->
     init_spec self st =
       (Ok tt,
        mkState (delete "chalice_app" (options st))
          (<[l := Chalice (Route self r) (RegisterBlueprint (Route self r) g)]>
             (heap st))
          (world st) (trace st)) /\
     options (snd (init_spec self st)) !! "chalice_app" = None /\
     fst (init_spec self (snd (init_spec self st))) =
       Raise (KeyError "chalice_app")).
Proof.
  split.
  - intros Hno. open_init_spec. rewrite Hno. now destruct st.
  - intros l r g Happ Hobj.
    assert (Hrun : init_spec self st =
      (Ok tt,
       mkState (delete "chalice_app" (options st))
         (<[l := Chalice (Route self r) (RegisterBlueprint (Route self r) g)]>
            (heap st))
         (world st) (trace st))).
    { open_init_spec. rewrite Happ. simpl.
      repeat (rewrite Hobj; simpl).
      rewrite lookup_insert_eq. simpl.
      now rewrite insert_insert_eq. }
    rewrite Hrun. cbn [snd options]. repeat split.
    + apply lookup_delete_eq.
    + open_init_spec. cbn [options]. now rewrite lookup_delete_eq.
Qed.

(** *** Blueprints *)

Lemma call_route_InnerRoute_Some p r q kwargs (st : state) :
  call_route (InnerRoute (Some p) r) q kwargs st =
    call_route r (p ++ q) kwargs st.
Proof. reflexivity. Qed.

Lemma call_route_InnerRoute_None r q kwargs (st : state) :
  call_route (InnerRoute None r) q kwargs st = (Raise TypeError, st).
Proof. reflexivity. Qed.

(** After [register_blueprint(blueprint, name_prefix, url_prefix)] the
    blueprint's [route] is the closure [inner_route] over [url_prefix],
    whether Chalice's own registration returned or raised. *)
Lemma register_blueprint_patches r owner b f0 name_prefix url_prefix (st : state) :
  heap st !! b = Some (Blueprint f0) ->
  heap (snd (call_register_blueprint
               (RegisterBlueprint r (ChaliceRegisterBlueprint owner))
               (VRef b) name_prefix url_prefix st)) !! b =
    Some (Blueprint (InnerRoute url_prefix r)).
Proof.
  intros Hb. simpl. open_register_blueprint. rewrite Hb. simpl.
  destruct chalice_register_blueprint as [res w]. simpl.
  apply lookup_insert_eq.
Qed.

Lemma invoke_route_blueprint b f q kwargs (st : state) :
  heap st !! b = Some (Blueprint f) ->
  invoke_route (VRef b) q kwargs st = call_route f q kwargs st.
Proof. intros Hb. open_invoke_route. now rewrite Hb. Qed.

Lemma doc_events_spec_entries path ms (evs : list (event (Ops := Ops))) x :
  doc_events path ms evs -> x ∈ spec_entries evs -> x.1.1 = path.
Proof.
  destruct 1; simpl; intros Hx.
  - now apply elem_of_nil in Hx.
  - now apply elem_of_nil in Hx.
  - apply list_elem_of_singleton in Hx. now subst x.
Qed.

Lemma route_spec_paths self owner path kwargs (st : state) x :
  x ∈ spec_entries (new_events st
        (snd (call_route (Route self (ChaliceRoute owner)) path kwargs st))) ->
  x.1.1 = path.
Proof.
  destruct (route_events self owner path kwargs st)
    as (evs & w & r & _ & Hshape & Hnew).
  rewrite Hnew. intros Hx.
  assert (Hevs : x ∈ spec_entries evs).
  { destruct r; [|exact Hx].
    rewrite spec_entries_app in Hx. simpl in Hx. now rewrite app_nil_r in Hx. }
  destruct (lower_methods kwargs) as [ms|e].
  - eapply doc_events_spec_entries; eassumption.
  - subst evs. now apply elem_of_nil in Hevs.
Qed.

(** C10: on a blueprint registered with the URL prefix [p], declaring the
    route [q] is registering the path [p ++ q] with the intercepted
    application-level [route]: the strings are concatenated as they are,
    and [p ++ q] is the path of every entry the spec-building object
    receives and of every call Chalice's original [route] receives. *)
Theorem blueprint_path_is_concatenation
    self owner b f0 name_prefix p q kwargs (st : state) :
  heap st !! b = Some (Blueprint f0) ->
  let r := Route self (ChaliceRoute owner) in
  let st' :=
    snd (call_register_blueprint
           (RegisterBlueprint r (ChaliceRegisterBlueprint owner))
           (VRef b) name_prefix (Some p) st) in
  let st'' := snd (invoke_route (VRef b) q kwargs st') in
  invoke_route (VRef b) q kwargs st' = call_route r (p ++ q) kwargs st' /\
  (forall path ops s,
     (path, ops, s) ∈ spec_entries (new_events st' st'') -> path = p ++ q) /\
  (forall o path kw,
     (o, path, kw) ∈ route_calls (new_events st' st'') -> path = p ++ q).
Proof.
  intros Hb r st' st''.
  assert (Hrun : invoke_route (VRef b) q kwargs st' =
                 call_route r (p ++ q) kwargs st').
  { erewrite invoke_route_blueprint
      by (eapply register_blueprint_patches; exact Hb).
    apply call_route_InnerRoute_Some. }
  split; [exact Hrun|]. subst st''. rewrite Hrun. split.
  - intros path ops s Hin.
    apply (route_spec_paths self owner (p ++ q) kwargs st' _ Hin).
  - intros o path kw Hin.
    destruct (route_calls_cases self owner (p ++ q) kwargs st') as [H|H];
      fold r in H; rewrite H in Hin.
    + now apply elem_of_nil in Hin.
    + apply list_elem_of_singleton in Hin. now injection Hin.
Qed.

(** C3, on the code: a blueprint registered without a URL prefix gets
    [inner_route] over [None], and every route declared on it afterwards
    raises [TypeError] at [prefix_url + path], before anything reaches the
    spec-building object or the original [route]; no empty string stands in
    for the missing prefix. *)
Theorem blueprint_without_prefix_raises
    self owner b f0 name_prefix q kwargs (st : state) :
  heap st !! b = Some (Blueprint f0) ->
  let r := Route self (ChaliceRoute owner) in
  let st' :=
    snd (call_register_blueprint
           (RegisterBlueprint r (ChaliceRegisterBlueprint owner))
           (VRef b) name_prefix None st) in
  invoke_route (VRef b) q kwargs st' = (Raise TypeError, st').
Proof.
  intros Hb r st'.
  erewrite invoke_route_blueprint
    by (eapply register_blueprint_patches; exact Hb).
  apply call_route_InnerRoute_None.
Qed.

(** ** Further properties of the interceptor *)

(** *** What a registration call leaves alone *)


(** *** Descriptors that are not descriptors, and the flag *)

Lemma get_docs_supplied (kwargs : gmap string value) v :
  kwargs !! "docs" = Some v -> PyDict.get "docs" VNone kwargs = v.
Proof. unfold PyDict.get. now intros ->. Qed.

Lemma route_transparent self orig path kwargs ms (st : state) :
  _generate_default_docs self = false ->
  kwargs !! "docs" = None ->
  declares kwargs ms ->
  call_route (Route self orig) path kwargs st = call_route orig path kwargs st.
Proof.
  intros Hflag Hdocs Hdecl.
  rewrite call_route_Route, (delete_id _ _ Hdocs).
  open_document. unfold bind, lift.
  rewrite (declares_lower_methods _ _ Hdecl).
  unfold PyDict.get. rewrite Hdocs, Hflag. reflexivity.
Qed.

(** After a second installation the interceptor installed first only sees
    options without [docs]: with default docs disabled it does nothing, so a
    call documents its descriptor once, through the outer interceptor. *)
Theorem inner_interceptor_transparent s1 s2 orig path kwargs ms (st : state) :
  _generate_default_docs s1 = false ->
  declares kwargs ms ->
  call_route (Route s2 (Route s1 orig)) path kwargs st =
    call_route (Route s2 orig) path kwargs st.
Proof.
  intros Hflag Hdecl.
  rewrite (call_route_Route s2 (Route s1 orig)), (call_route_Route s2 orig).
  destruct document as [[[]|e] st1]; [|reflexivity].
  apply (route_transparent s1 orig path _ ms); auto using declares_after_pop.
  apply lookup_delete_eq.
Qed.

(** With a descriptor supplied (any value but [None]) the flag
    [generate_default_docs] plays no part in the call. *)
Theorem supplied_descriptor_ignores_flag s1 s2 orig path kwargs v (st : state) :
  kwargs !! "docs" = Some v ->
  PyVal.is_none v = false ->
  call_route (Route s1 orig) path kwargs st =
    call_route (Route s2 orig) path kwargs st.
Proof.
  intros Hdocs Hnone.
  rewrite !call_route_Route, (get_docs_supplied _ _ Hdocs).
  open_document. now rewrite Hnone.
Qed.

(** A supplied descriptor that is false without being [None] ([False], an
    empty string or list) switches documentation off for the call, default
    docs included: the call is the original's, on the options without
    [docs]. *)
Theorem falsy_descriptor_skips_docs self orig path kwargs v ms (st : state) :
  kwargs !! "docs" = Some v ->
  PyVal.is_none v = false ->
  PyVal.truthy v = false ->
  declares kwargs ms ->
  call_route (Route self orig) path kwargs st =
    call_route orig path (delete "docs" kwargs) st.
Proof.
  intros Hdocs Hnone Hfalse Hdecl.
  rewrite call_route_Route, (get_docs_supplied _ _ Hdocs).
  open_document. unfold bind, lift.
  rewrite lower_methods_after_pop, (declares_lower_methods _ _ Hdecl).
  rewrite Hnone. simpl. now rewrite Hfalse.
Qed.

(** A supplied descriptor that is true but has no [build_operations] makes
    the call raise [AttributeError] before any collaborator is called: no
    conversion, no spec entry, and the original is not invoked. *)
Theorem non_docs_descriptor_raises self orig path kwargs v ms (st : state) :
  kwargs !! "docs" = Some v ->
  PyVal.truthy v = true ->
  has_build_operations v = false ->
  declares kwargs ms ->
  call_route (Route self orig) path kwargs st = (Raise AttributeError, st).
Proof.
  intros Hdocs Htrue Hattr Hdecl.
  rewrite call_route_Route, (get_docs_supplied _ _ Hdocs).
  open_document. unfold bind, lift.
  rewrite lower_methods_after_pop, (declares_lower_methods _ _ Hdecl).
  destruct v; try discriminate; simpl in *; rewrite ?Htrue; reflexivity.
Qed.

(** *** Methods that are not a list of strings *)

(** When line 50 raises (a [methods] option that cannot be iterated, or an
    element without [lower]), the call raises that error at once: nothing is
    documented and the original is not invoked, whatever the descriptor. *)
Theorem bad_methods_raise_first self orig path kwargs e (st : state) :
  lower_methods kwargs = Raise e ->
  call_route (Route self orig) path kwargs st = (Raise e, st).
Proof.
  intros Hbad. rewrite call_route_Route.
  open_document. unfold bind, lift.
  now rewrite lower_methods_after_pop, Hbad.
Qed.

(** *** Failures of the collaborators *)

Lemma document_supplied self path d kw ms (st : state) :
  declares kw ms ->
  document self path (VDocs d) kw st =
    register_docs path (VDocs d) (PyStr.lower <$> ms) st.
Proof.
  intros Hdecl. open_document. unfold bind, lift.
  now rewrite (declares_lower_methods _ _ Hdecl).
Qed.

Lemma register_docs_returns path d ms ops w1 w2 (st : state) :
  build_operations d ms (world st) = (Ok ops, w1) ->
  spec_path path ops (summary d) w1 = (Ok tt, w2) ->
  register_docs path (VDocs d) ms st =
    (Ok tt, mkState (options st) (heap st) w2
              (trace st ++ [BuildOperations d ms; SpecPath path ops (summary d)])).
Proof.
  intros Hb Hp. open_register_docs. run. rewrite Hb. simpl. rewrite Hp.
  now rewrite <- app_assoc.
Qed.

(** A conversion that raises ends the call with its error: [spec.path] and
    the original are not called, and the state is the one the conversion
    left. *)
Theorem conversion_failure_stops_route
    self orig path kwargs d ms e w (st : state) :
  kwargs !! "docs" = Some (VDocs d) ->
  declares kwargs ms ->
  build_operations d (PyStr.lower <$> ms) (world st) = (Raise e, w) ->
  call_route (Route self orig) path kwargs st =
    (Raise e,
     mkState (options st) (heap st) w
       (trace st ++ [BuildOperations d (PyStr.lower <$> ms)])).
Proof.
  intros Hdocs Hdecl Hb.
  rewrite call_route_Route, (get_docs_supplied _ _ Hdocs).
  rewrite (document_supplied _ _ _ _ ms) by now apply declares_after_pop.
  open_register_docs. run. now rewrite Hb.
Qed.

(** A [spec.path] that raises ends the call with its error after the
    conversion has run: the original is not called, and what the conversion
    and [spec.path] did to the world stays. *)
Theorem spec_path_failure_stops_route
    self orig path kwargs d ms ops e w1 w2 (st : state) :
  kwargs !! "docs" = Some (VDocs d) ->
  declares kwargs ms ->
  build_operations d (PyStr.lower <$> ms) (world st) = (Ok ops, w1) ->
  spec_path path ops (summary d) w1 = (Raise e, w2) ->
  call_route (Route self orig) path kwargs st =
    (Raise e,
     mkState (options st) (heap st) w2
       (trace st ++ [BuildOperations d (PyStr.lower <$> ms);
                     SpecPath path ops (summary d)])).
Proof.
  intros Hdocs Hdecl Hb Hp.
  rewrite call_route_Route, (get_docs_supplied _ _ Hdocs).
  rewrite (document_supplied _ _ _ _ ms) by now apply declares_after_pop.
  open_register_docs. run. rewrite Hb. simpl. rewrite Hp.
  now rewrite <- app_assoc.
Qed.

(** When the original [route] raises, the call raises the same error and
    the documentation already registered is kept: the entries of the
    spec-building object are those the documentation stage left. *)
Theorem original_failure_keeps_docs
    self owner path kwargs e w (st st1 : state) :
  document self path (PyDict.get "docs" VNone kwargs)
    (delete "docs" kwargs) st = (Ok tt, st1) ->
  chalice_route owner path (delete "docs" kwargs) (world st1) = (Raise e, w) ->
  let res := call_route (Route self (ChaliceRoute owner)) path kwargs st in
  fst res = Raise e /\
  world (snd res) = w /\
  spec_entries (trace (snd res)) = spec_entries (trace st1).
Proof.
  intros Hdoc Horig res. subst res.
  rewrite route_spec_entries, call_route_Route, Hdoc, call_route_chalice, Horig.
  auto.
Qed.

(** *** Installing twice *)

(** With two interceptors stacked, both generating default docs, a call
    without a descriptor is documented twice: the spec-building object
    receives the same path two times before the original is called once. *)
Theorem double_install_documents_twice
    s1 s2 owner path kwargs ms ops1 ops2 w1 w2 w3 w4 (st : state) :
  _generate_default_docs s1 = true ->
  _generate_default_docs s2 = true ->
  PyDict.get "docs" VNone kwargs = VNone ->
  declares kwargs ms ->
  let lms := PyStr.lower <$> ms in
  let d := Docs_of (default_operations lms) in
  build_operations d lms (world st) = (Ok ops1, w1) ->
  spec_path path ops1 None w1 = (Ok tt, w2) ->
  build_operations d lms w2 = (Ok ops2, w3) ->
  spec_path path ops2 None w3 = (Ok tt, w4) ->
  new_events st
    (snd (call_route (Route s2 (Route s1 (ChaliceRoute owner))) path kwargs st)) =
    [BuildOperations d lms; SpecPath path ops1 None;
     BuildOperations d lms; SpecPath path ops2 None;
     CallRoute owner path (delete "docs" kwargs)].
Proof.
  intros Hf1 Hf2 Hdocs Hdecl lms d Hb1 Hp1 Hb2 Hp2.
  pose proof (declares_after_pop _ _ Hdecl) as Hdecl'.
  assert (Hgone : PyDict.get "docs" VNone (delete "docs" kwargs) = VNone).
  { unfold PyDict.get. now rewrite lookup_delete_eq. }
  rewrite call_route_Route, Hdocs, (document_default _ _ _ ms _ Hf2 Hdecl').
  fold lms d. rewrite (register_docs_returns _ _ _ _ _ _ _ Hb1 Hp1).
  rewrite call_route_Route, Hgone.
  rewrite (document_default _ _ _ ms _ Hf1 (declares_after_pop _ _ Hdecl')).
  fold lms d. rewrite (register_docs_returns _ _ _ ops2 w3 w4); [|exact Hb2|exact Hp2].
  rewrite call_route_chalice. apply new_events_app. simpl.
  rewrite <- !app_assoc. simpl.
  now rewrite (delete_id (delete "docs" kwargs)) by apply lookup_delete_eq.
Qed.

(** *** More on installation *)

(** An [init_spec] that raises, for whatever reason, has replaced no method
    of any object and called no collaborator: the two methods of the
    application are replaced together or not at all. *)
Theorem init_spec_failure_changes_no_object self e (st : state) :
  fst (init_spec self st) = Raise e ->
  let st' := snd (init_spec self st) in
  heap st' = heap st /\ world st' = world st /\ trace st' = trace st.
Proof.
  open_init_spec.
  destruct (options st !! "chalice_app") as [v|]; simpl; [|auto].
  destruct v as [| | | | |l]; simpl; auto.
  destruct (heap st !! l) as [[r g|r]|] eqn:Hobj;
    repeat (rewrite ?Hobj, ?lookup_insert_eq; simpl); auto.
  discriminate.
Qed.

(** A reference that is not an application (no [route], or a [route] but
    no [register_blueprint], as a blueprint has) makes [init_spec] raise
    [AttributeError]; the reference has been popped from [spec.options] all
    the same, so that it is gone for a second attempt. *)
Theorem init_spec_consumes_bad_reference self v (st : state) :
  options st !! "chalice_app" = Some v ->
  (forall l r g, v = VRef l -> heap st !! l <> Some (Chalice r g)) ->
  init_spec self st =
    (Raise AttributeError,
     mkState (delete "chalice_app" (options st)) (heap st) (world st) (trace st)).
Proof.
  intros Hopt Hbad. open_init_spec. rewrite Hopt. simpl.
  destruct v as [| | | | |l]; simpl; auto.
  destruct (heap st !! l) as [[r g|r]|] eqn:Hobj;
    repeat (rewrite ?Hobj; simpl); auto.
  now destruct (Hbad l r g eq_refl).
Qed.

Lemma init_spec_touches_only_app_aux self (st : state) :
  let st' := snd (init_spec self st) in
  (forall k, k <> "chalice_app" -> options st' !! k = options st !! k) /\
  (forall l, options st !! "chalice_app" <> Some (VRef l) ->
             heap st' !! l = heap st !! l) /\
  world st' = world st /\ trace st' = trace st.
Proof.
  open_init_spec.
  destruct (options st !! "chalice_app") as [v|] eqn:Hopt; simpl; [|auto].
  assert (Hk : forall k, k <> "chalice_app" ->
    delete "chalice_app" (options st) !! k = options st !! k)
    by (intros k Hne; now apply lookup_delete_ne).
  destruct v as [| | | | |l]; simpl; auto.
  destruct (heap st !! l) as [[r g|r]|] eqn:Hobj;
    repeat (rewrite ?Hobj, ?lookup_insert_eq; simpl); auto.
  repeat split; auto. intros l' Hne.
  rewrite insert_insert_eq. apply lookup_insert_ne. congruence.
Qed.

(** [init_spec] touches one key of [spec.options] and one object: every
    other option and every object but the application referred to (the
    blueprints, for one) is as before, and no collaborator is called. *)
Theorem init_spec_touches_only_app self (st : state) :
  let st' := snd (init_spec self st) in
  (forall k, k <> "chalice_app" -> options st' !! k = options st !! k) /\
  (forall l, options st !! "chalice_app" <> Some (VRef l) ->
             heap st' !! l = heap st !! l) /\
  world st' = world st /\ trace st' = trace st.
Proof. apply init_spec_touches_only_app_aux. Qed.

(** After installation the application's [route] is the interceptor over
    the route that was there, and [register_blueprint] the interceptor over
    the registration that was there, sharing that same [route]. *)
Theorem installed_methods_intercept self l r g (st : state) :
  options st !! "chalice_app" = Some (VRef l) ->
  heap st !! l = Some (Chalice r g) ->
  let st' := snd (init_spec self st) in
  (forall path kwargs,
     invoke_route (VRef l) path kwargs st' =
       call_route (Route self r) path kwargs st') /\
  (forall b name_prefix url_prefix,
     invoke_register_blueprint (VRef l) b name_prefix url_prefix st' =
       call_register_blueprint (RegisterBlueprint (Route self r) g)
         b name_prefix url_prefix st').
Proof.
  intros Hopt Hobj st'.
  assert (Hl : heap st' !! l =
    Some (Chalice (Route self r) (RegisterBlueprint (Route self r) g))).
  { subst st'. open_init_spec. rewrite Hopt. simpl.
    repeat (rewrite Hobj; simpl). rewrite lookup_insert_eq. simpl.
    apply lookup_insert_eq. }
  split; intros.
  - open_invoke_route. now rewrite Hl.
  - unfold invoke_register_blueprint, getattr_register_blueprint, bind.
    now rewrite Hl.
Qed.

(** Installation does not reach the blueprints: on a blueprint that has
    not been registered through the application, [route] is still Chalice's
    own, which receives the options as they are, [docs] included, and
    nothing is documented. *)
Theorem unregistered_blueprint_bypasses self b path kwargs (st : state) :
  options st !! "chalice_app" <> Some (VRef b) ->
  heap st !! b = Some (Blueprint (ChaliceRoute b)) ->
  let st' := snd (init_spec self st) in
  new_events st' (snd (invoke_route (VRef b) path kwargs st')) =
    [CallRoute b path kwargs].
Proof.
  intros Hne Hb st'.
  assert (Hb' : heap st' !! b = Some (Blueprint (ChaliceRoute b))).
  { rewrite <- Hb.
    apply (proj1 (proj2 (init_spec_touches_only_app_aux self st)) b Hne). }
  rewrite (invoke_route_blueprint _ _ _ _ _ Hb'), call_route_chalice.
  now apply new_events_app.
Qed.

(** *** More on blueprints *)

Lemma register_blueprint_run r owner b f0 name_prefix url_prefix (st : state) :
  heap st !! b = Some (Blueprint f0) ->
  call_register_blueprint
    (RegisterBlueprint r (ChaliceRegisterBlueprint owner))
    (VRef b) name_prefix url_prefix st =
    (fst (chalice_register_blueprint owner b name_prefix url_prefix (world st)),
     mkState (options st)
       (<[b := Blueprint (InnerRoute url_prefix r)]> (heap st))
       (snd (chalice_register_blueprint owner b name_prefix url_prefix (world st)))
       (trace st ++ [CallRegisterBlueprint owner b name_prefix url_prefix])).
Proof.
  intros Hb. simpl. open_register_blueprint. rewrite Hb. simpl.
  now destruct chalice_register_blueprint.
Qed.

(** The intercepted [register_blueprint] calls Chalice's own once, with
    the blueprint and both prefixes as given, and its outcome is Chalice's;
    the blueprint's [route] has been replaced before that call, so it stays
    replaced when Chalice raises. *)
Theorem register_blueprint_delegates
    r owner b f0 name_prefix url_prefix (st : state) :
  heap st !! b = Some (Blueprint f0) ->
  let res := call_register_blueprint
               (RegisterBlueprint r (ChaliceRegisterBlueprint owner))
               (VRef b) name_prefix url_prefix st in
  let ext := chalice_register_blueprint owner b name_prefix url_prefix (world st) in
  fst res = fst ext /\
  world (snd res) = snd ext /\
  new_events st (snd res) =
    [CallRegisterBlueprint owner b name_prefix url_prefix] /\
  options (snd res) = options st /\
  heap (snd res) = <[b := Blueprint (InnerRoute url_prefix r)]> (heap st).
Proof.
  intros Hb res ext. subst res ext.
  rewrite (register_blueprint_run _ _ _ _ _ _ _ Hb). simpl.
  repeat split. now apply new_events_app.
Qed.

(** Registering a blueprint again replaces its closure: the prefix of the
    last registration is the one prepended, alone, whatever the earlier
    prefix was (a missing one included). *)
Theorem reregistration_replaces_prefix
    r owner b f0 np1 np2 p1 p2 q kwargs (st : state) :
  heap st !! b = Some (Blueprint f0) ->
  let g := RegisterBlueprint r (ChaliceRegisterBlueprint owner) in
  let st1 := snd (call_register_blueprint g (VRef b) np1 p1 st) in
  let st2 := snd (call_register_blueprint g (VRef b) np2 (Some p2) st1) in
  invoke_route (VRef b) q kwargs st2 = call_route r (p2 ++ q) kwargs st2.
Proof.
  intros Hb g st1 st2.
  assert (H1 : heap st1 !! b = Some (Blueprint (InnerRoute p1 r)))
    by (eapply register_blueprint_patches; exact Hb).
  assert (H2 : heap st2 !! b = Some (Blueprint (InnerRoute (Some p2) r)))
    by (eapply register_blueprint_patches; exact H1).
  rewrite (invoke_route_blueprint _ _ _ _ _ H2).
  apply call_route_InnerRoute_Some.
Qed.

(** A route declared on a registered blueprint is registered with the
    application's original [route], on the options without [docs]: the
    [route] the blueprint had before registration is never called. *)
Theorem blueprint_routes_reach_app
    self owner b f0 name_prefix url_prefix q kwargs (st : state) :
  heap st !! b = Some (Blueprint f0) ->
  let r := Route self (ChaliceRoute owner) in
  let st' :=
    snd (call_register_blueprint
           (RegisterBlueprint r (ChaliceRegisterBlueprint owner))
           (VRef b) name_prefix url_prefix st) in
  let st'' := snd (invoke_route (VRef b) q kwargs st') in
  forall o path kw,
    (o, path, kw) ∈ route_calls (new_events st' st'') ->
    o = owner /\ kw = delete "docs" kwargs.
Proof.
  intros Hb r st' st'' o path kw Hin.
  assert (Hb' : heap st' !! b = Some (Blueprint (InnerRoute url_prefix r)))
    by (eapply register_blueprint_patches; exact Hb).
  subst st''. rewrite (invoke_route_blueprint _ _ _ _ _ Hb') in Hin.
  destruct url_prefix as [p|].
  - rewrite call_route_InnerRoute_Some in Hin.
    destruct (route_calls_cases self owner (p ++ q) kwargs st') as [H|H];
      fold r in H; rewrite H in Hin.
    + now apply elem_of_nil in Hin.
    + apply list_elem_of_singleton in Hin. now injection Hin.
  - rewrite call_route_InnerRoute_None in Hin. simpl in Hin.
    unfold new_events in Hin. rewrite drop_all in Hin.
    now apply elem_of_nil in Hin.
Qed.

(** *** The default method *)

(** Without a [methods] option the documentation is that of [get], and the
    default stays on the documentation side: the options forwarded to the
    original still have no [methods]. *)
Theorem default_method_not_forwarded self owner path kwargs (st : state) :
  kwargs !! "methods" = None ->
  let st2 := snd (call_route (Route self (ChaliceRoute owner)) path kwargs st) in
  (forall d ms, BuildOperations d ms ∈ new_events st st2 -> ms = ["get"]) /\
  (forall o p kw,
     (o, p, kw) ∈ route_calls (new_events st st2) -> kw !! "methods" = None).
Proof.
  intros Hms st2.
  assert (Hdecl : lower_methods kwargs = Ok ["get"]).
  { apply (declares_lower_methods kwargs ["get"]).
    unfold declares, PyDict.get. now rewrite Hms. }
  split.
  - intros d ms Hin.
    destruct (route_events self owner path kwargs st)
      as (evs & w & res & _ & Hshape & Hnew).
    fold st2 in Hnew. rewrite Hnew in Hin. rewrite Hdecl in Hshape.
    assert (Hevs : BuildOperations d ms ∈ evs).
    { destruct res; [|exact Hin].
      apply elem_of_app in Hin as [Hin|Hin]; [exact Hin|].
      apply list_elem_of_singleton in Hin. discriminate. }
    destruct Hshape.
    + now apply elem_of_nil in Hevs.
    + apply list_elem_of_singleton in Hevs. now injection Hevs.
    + apply elem_of_cons in Hevs as [Hevs|Hevs]; [now injection Hevs|].
      apply list_elem_of_singleton in Hevs. discriminate.
  - intros o p kw Hin.
    destruct (route_calls_cases self owner path kwargs st) as [H|H];
      fold st2 in H; rewrite H in Hin.
    + now apply elem_of_nil in Hin.
    + apply list_elem_of_singleton in Hin. injection Hin as -> -> ->.
      now rewrite methods_after_pop.
Qed.

End Properties.

(** *** Line 50 and the default descriptor, on their own *)

Lemma lower_each_chars s :
  PyVal.lower_each (VStr <$> PyStr.chars s) = Ok (PyStr.chars (PyStr.lower s)).
Proof.
  induction s as [|c s IH]; [reflexivity|].
  simpl PyStr.chars. rewrite fmap_cons. simpl. now rewrite IH.
Qed.

(** A [methods] option that is one string is gone through character by
    character: [methods="GET"] declares the three methods [g], [e], [t]. *)
Theorem string_methods_are_split (kwargs : gmap string value) s :
  kwargs !! "methods" = Some (VStr s) ->
  lower_methods kwargs = Ok (PyStr.chars (PyStr.lower s)).
Proof.
  intros Hms. unfold lower_methods, PyDict.get. rewrite Hms. simpl.
  apply lower_each_chars.
Qed.


(** The default descriptor depends on which methods are declared, not on
    their order or repetition: declaring [GET] and [get] gives one entry. *)
Theorem default_operations_ignore_duplicates ms1 ms2 :
  (forall k : string, k ∈ ms1 <-> k ∈ ms2) ->
  default_operations ms1 = default_operations ms2.
Proof.
  intros Hsame. apply map_eq. intros k.
  rewrite !default_operations_lookup.
  destruct (decide (k ∈ ms1)) as [H1|H1], (decide (k ∈ ms2)) as [H2|H2];
    try reflexivity; exfalso; [apply H2 | apply H1]; now apply Hsame.
Qed.

(** ** The properties on concrete calls *)

(** [route("/hello", methods=["POST"])] with default docs enabled: the
    descriptor is synthesized, registered, and the original is called. *)
Lemma route_calls_original_once_witness :
  let kwargs : gmap string value := {["methods" := VList [VStr "POST"]]} in
  let st1 :=
    snd (document Demo.build_operations Demo.spec_path (Demo.plugin true)
           "/hello" (PyDict.get "docs" VNone kwargs) (delete "docs" kwargs)
           Demo.start) in
  document Demo.build_operations Demo.spec_path (Demo.plugin true)
    "/hello" (PyDict.get "docs" VNone kwargs) (delete "docs" kwargs)
    Demo.start = (Ok tt, st1) /\
  route_calls (new_events Demo.start
    (snd (Demo.call_route (Route (Demo.plugin true) (ChaliceRoute Demo.app))
            "/hello" kwargs Demo.start))) =
    [(Demo.app, "/hello", delete "docs" kwargs)].
Proof.
  intros kwargs st1.
  assert (H : document Demo.build_operations Demo.spec_path (Demo.plugin true)
    "/hello" (PyDict.get "docs" VNone kwargs) (delete "docs" kwargs)
    Demo.start = (Ok tt, st1)) by (vm_compute; reflexivity).
  split; [exact H|].
  exact (proj2 (proj2 (route_calls_original_once Demo.chalice_route
    Demo.build_operations Demo.spec_path (Demo.plugin true) Demo.app
    "/hello" kwargs Demo.start st1 H))).
Defined.

(** The example of the spec: after installation,
    [route("/hello", methods=["post"], docs=post_docs)] leaves one entry
    [/hello] in the spec-building object and calls the original as
    [route("/hello", methods=["post"])]. *)
Example hello_with_docs :
  let st2 := snd (Demo.invoke_route (VRef Demo.app) "/hello" Demo.with_docs
                    (Demo.installed false)) in
  trace st2 =
    [BuildOperations Demo.post_docs ["post"];
     SpecPath "/hello" ["post"] (Some "Create an item");
     CallRoute Demo.app "/hello" {["methods" := VList [VStr "post"]]}].
Proof. vm_compute. reflexivity. Qed.

(** [route("/hello", methods=["post"], docs=post_docs)] returns what the
    original returns for [route("/hello", methods=["post"])]. *)
Lemma route_returns_original_result_witness :
  let st2 := snd (Demo.call_route (Demo.app_route false) "/hello"
                    Demo.with_docs Demo.start) in
  Demo.call_route (Demo.app_route false) "/hello" Demo.with_docs Demo.start =
    (Ok "/hello", st2) /\
  exists st1,
    document Demo.build_operations Demo.spec_path (Demo.plugin false) "/hello"
      (PyDict.get "docs" VNone Demo.with_docs) (delete "docs" Demo.with_docs)
      Demo.start = (Ok tt, st1) /\
    Demo.call_route (ChaliceRoute Demo.app) "/hello"
      (delete "docs" Demo.with_docs) st1 = (Ok "/hello", st2).
Proof.
  intros st2.
  assert (H : Demo.call_route (Demo.app_route false) "/hello" Demo.with_docs
                Demo.start = (Ok "/hello", st2)) by (vm_compute; reflexivity).
  split; [exact H|].
  exact (proj1 (route_returns_original_result Demo.chalice_route
    Demo.build_operations Demo.spec_path (Demo.plugin false)
    (ChaliceRoute Demo.app) "/hello" Demo.with_docs Demo.start) "/hello" st2 H).
Defined.

(** Installation without and with the application reference. *)
Lemma init_spec_consumes_app_witness :
  Demo.init_spec (Demo.plugin false) Demo.unconfigured =
    (Raise (KeyError "chalice_app"), Demo.unconfigured) /\
  heap (Demo.installed false) !! Demo.app =
    Some (Chalice (Demo.app_route false) (Demo.app_register_blueprint false)) /\
  options (Demo.installed false) !! "chalice_app" = None /\
  fst (Demo.init_spec (Demo.plugin false) (Demo.installed false)) =
    Raise (KeyError "chalice_app").
Proof.
  split.
  - apply (init_spec_consumes_app (Demo.plugin false) Demo.unconfigured).
    vm_compute; reflexivity.
  - destruct (proj2 (init_spec_consumes_app (Demo.plugin false) Demo.start)
      Demo.app (ChaliceRoute Demo.app) (ChaliceRegisterBlueprint Demo.app))
      as (Hrun & Hgone & Hagain); [vm_compute; reflexivity ..|].
    split; [|split; [exact Hgone | exact Hagain]].
    unfold Demo.installed, Demo.init_spec. rewrite Hrun.
    vm_compute; reflexivity.
Defined.

(** [route("/hello", methods=["POST", "Get"])] with default docs: [post]
    gets the placeholder as request, [get] a null request. *)
Lemma default_docs_requests_witness :
  exists d rest,
    new_events Demo.start
      (snd (Demo.call_route (Demo.app_route true) "/hello" Demo.mixed_case
              Demo.start)) =
      BuildOperations d ["post"; "get"] :: rest /\
    entries d !! "post" =
      Some {| request := Some BaseModel; response := Some BaseModel |} /\
    entries d !! "get" =
      Some {| request := None; response := Some BaseModel |}.
Proof.
  destruct (default_docs_requests Demo.chalice_route Demo.build_operations
    Demo.spec_path (Demo.plugin true) Demo.app "/hello" Demo.mixed_case
    ["POST"; "Get"] Demo.start) as (d & rest & Hnew & _ & _);
    [reflexivity | vm_compute; reflexivity | vm_compute; reflexivity |].
  exists d, rest. split; [exact Hnew|].
  assert (Hd : d = Docs_of (default_operations ["post"; "get"])).
  { assert (Hc : new_events Demo.start
      (snd (Demo.call_route (Demo.app_route true) "/hello" Demo.mixed_case
              Demo.start)) =
      [BuildOperations (Docs_of (default_operations ["post"; "get"]))
         ["post"; "get"];
       SpecPath "/hello" ["post"; "get"] None;
       CallRoute Demo.app "/hello" Demo.mixed_case])
      by (vm_compute; reflexivity).
    pose proof (eq_trans (eq_sym Hnew) Hc) as E. now injection E. }
  subst d. split; vm_compute; reflexivity.
Defined.

(** The options that reach the original lack [docs] and keep [methods]. *)
Lemma route_strips_docs_witness :
  let st2 := snd (Demo.call_route (Demo.app_route false) "/hello"
                    Demo.with_docs Demo.start) in
  let kw : gmap string value := {["methods" := VList [VStr "post"]]} in
  (Demo.app, "/hello", kw) ∈ route_calls (new_events Demo.start st2) /\
  "/hello" = "/hello" /\
  kw !! "docs" = None /\
  forall k, k <> "docs" -> kw !! k = Demo.with_docs !! k.
Proof.
  intros st2 kw.
  assert (Hin : (Demo.app, "/hello", kw) ∈
                  route_calls (new_events Demo.start st2))
    by (vm_compute; constructor).
  split; [exact Hin|].
  exact (proj1 (route_strips_docs Demo.chalice_route Demo.build_operations
    Demo.spec_path (Demo.plugin false) Demo.app "/hello" Demo.with_docs
    Demo.start) Demo.app "/hello" kw Hin).
Defined.

(** [methods=["POST", "Get"]] and [methods=["post", "get"]] leave the same
    entry in the spec-building object. *)
Lemma methods_case_insensitive_witness :
  let kw1 : gmap string value :=
    <["methods" := VList (VStr <$> ["POST"; "Get"])]> ∅ in
  let kw2 : gmap string value :=
    <["methods" := VList (VStr <$> ["post"; "get"])]> ∅ in
  PyStr.lower <$> ["POST"; "Get"] = PyStr.lower <$> ["post"; "get"] /\
  spec_entries
    (trace (snd (Demo.call_route (Demo.app_route true) "/hello" kw1 Demo.start))) =
  spec_entries
    (trace (snd (Demo.call_route (Demo.app_route true) "/hello" kw2 Demo.start))).
Proof.
  intros kw1 kw2.
  assert (H : PyStr.lower <$> ["POST"; "Get"] = PyStr.lower <$> ["post"; "get"])
    by reflexivity.
  split; [exact H|].
  exact (proj2 (proj2 (methods_case_insensitive Demo.chalice_route
    Demo.build_operations Demo.spec_path (Demo.plugin true) Demo.app "/hello"
    ∅ ["POST"; "Get"] ["post"; "get"] Demo.start H))).
Defined.

(** [route("/hello", methods=["POST", "Get"])] with default docs disabled
    only calls the original, with the options as they are. *)
Lemma route_without_docs_witness :
  new_events Demo.start
    (snd (Demo.call_route (Demo.app_route false) "/hello" Demo.mixed_case
            Demo.start)) =
    [CallRoute Demo.app "/hello" Demo.mixed_case].
Proof.
  refine (proj1 (proj2 (route_without_docs Demo.chalice_route
    Demo.build_operations Demo.spec_path (Demo.plugin false) Demo.app "/hello"
    Demo.mixed_case ["POST"; "Get"] Demo.start _ _ _)));
    vm_compute; reflexivity.
Defined.

(** With default docs, the conversion sees [post] and [get] while the
    original receives [POST] and [Get]. *)
Lemma route_forwards_methods_as_given_witness :
  let st2 := snd (Demo.call_route (Demo.app_route true) "/hello"
                    Demo.mixed_case Demo.start) in
  (Demo.app, "/hello", Demo.mixed_case) ∈ route_calls (new_events Demo.start st2) /\
  Demo.mixed_case !! "methods" = Some (VList (VStr <$> ["POST"; "Get"])).
Proof.
  intros st2.
  assert (Hin : (Demo.app, "/hello", Demo.mixed_case) ∈
                  route_calls (new_events Demo.start st2))
    by (vm_compute; constructor).
  split; [exact Hin|].
  refine (proj1 (route_forwards_methods_as_given Demo.chalice_route
    Demo.build_operations Demo.spec_path (Demo.plugin true) Demo.app "/hello"
    Demo.mixed_case ["POST"; "Get"] Demo.start _) Demo.app "/hello"
    Demo.mixed_case Hin).
  vm_compute; reflexivity.
Defined.

(** Prefix [/v1/] and route [/items]: the path registered is [/v1//items],
    in the spec-building object and in Chalice. *)
Lemma blueprint_path_is_concatenation_witness :
  let st' := Demo.registered (Some "/v1/") in
  let st'' := snd (Demo.invoke_route (VRef Demo.bp) "/items" Demo.with_docs st') in
  let kw : gmap string value := {["methods" := VList [VStr "post"]]} in
  (Demo.app, "/v1//items", kw) ∈ route_calls (new_events st' st'') /\
  ("/v1//items", ["post"], Some "Create an item") ∈
    spec_entries (new_events st' st'') /\
  "/v1//items" = "/v1/" ++ "/items".
Proof.
  intros st' st'' kw.
  assert (Hb : heap (Demo.installed true) !! Demo.bp =
               Some (Blueprint (ChaliceRoute Demo.bp)))
    by (vm_compute; reflexivity).
  assert (Hin : (Demo.app, "/v1//items", kw) ∈ route_calls (new_events st' st''))
    by (vm_compute; constructor).
  assert (Hspec : ("/v1//items", ["post"], Some "Create an item") ∈
                    spec_entries (new_events st' st''))
    by (vm_compute; constructor).
  split; [exact Hin | split; [exact Hspec|]].
  exact (proj2 (proj2 (blueprint_path_is_concatenation Demo.chalice_route
    Demo.chalice_register_blueprint Demo.build_operations Demo.spec_path
    (Demo.plugin true) Demo.app Demo.bp (ChaliceRoute Demo.bp) None
    "/v1/" "/items" Demo.with_docs (Demo.installed true) Hb))
    Demo.app "/v1//items" kw Hin).
Defined.

(** [app.register_blueprint(bp)] succeeds, and [bp.route("/items")] then
    raises [TypeError]. *)
Lemma blueprint_without_prefix_raises_witness :
  Demo.invoke_register_blueprint (VRef Demo.app) (VRef Demo.bp) None None
    (Demo.installed true) = (Ok "", Demo.registered None) /\
  Demo.invoke_route (VRef Demo.bp) "/items" ∅ (Demo.registered None) =
    (Raise TypeError, Demo.registered None).
Proof.
  assert (Hb : heap (Demo.installed true) !! Demo.bp =
               Some (Blueprint (ChaliceRoute Demo.bp)))
    by (vm_compute; reflexivity).
  split; [vm_compute; reflexivity|].
  exact (blueprint_without_prefix_raises Demo.chalice_route
    Demo.chalice_register_blueprint Demo.build_operations Demo.spec_path
    (Demo.plugin true) Demo.app Demo.bp (ChaliceRoute Demo.bp) None
    "/items" ∅ (Demo.installed true) Hb).
Defined.

(** The example of the spec: prefix [/v1] and route [/items] give
    [/v1/items], in the spec-building object and in Chalice. *)
Example blueprint_v1_items :
  trace (snd (Demo.invoke_route (VRef Demo.bp) "/items" Demo.with_docs
                (Demo.registered (Some "/v1")))) =
    [CallRegisterBlueprint Demo.app Demo.bp None (Some "/v1");
     BuildOperations Demo.post_docs ["post"];
     SpecPath "/v1/items" ["post"] (Some "Create an item");
     CallRoute Demo.app "/v1/items" {["methods" := VList [VStr "post"]]}].
Proof. vm_compute. reflexivity. Qed.

(** A conversion that raises stops the call before the original [route]. *)
Example failing_conversion :
  call_route Demo.chalice_route Demo.failing_build_operations Demo.spec_path
    (Demo.app_route false) "/hello" Demo.with_docs Demo.start =
    (Raise (External 1),
     {| options := options Demo.start; heap := heap Demo.start; world := tt;
        trace := [BuildOperations Demo.post_docs ["post"]] |}).
Proof. vm_compute. reflexivity. Qed.

(** ** The further properties on concrete calls *)

Lemma inner_interceptor_transparent_witness :
  Demo.call_route (Demo.twice_route false true) "/hello" Demo.with_docs Demo.start =
    Demo.call_route (Demo.app_route true) "/hello" Demo.with_docs Demo.start.
Proof.
  apply (inner_interceptor_transparent Demo.chalice_route Demo.build_operations
    Demo.spec_path (Demo.plugin false) (Demo.plugin true) (ChaliceRoute Demo.app)
    "/hello" Demo.with_docs ["post"] Demo.start);
    [reflexivity | vm_compute; reflexivity].
Defined.

Lemma supplied_descriptor_ignores_flag_witness :
  Demo.call_route (Demo.app_route true) "/hello" Demo.with_docs Demo.start =
    Demo.call_route (Demo.app_route false) "/hello" Demo.with_docs Demo.start.
Proof.
  apply (supplied_descriptor_ignores_flag Demo.chalice_route
    Demo.build_operations Demo.spec_path (Demo.plugin true) (Demo.plugin false)
    (ChaliceRoute Demo.app) "/hello" Demo.with_docs (VDocs Demo.post_docs)
    Demo.start); [vm_compute; reflexivity | reflexivity].
Defined.

Lemma falsy_descriptor_skips_docs_witness :
  Demo.call_route (Demo.app_route true) "/hello" Demo.opt_out Demo.start =
    Demo.call_route (ChaliceRoute Demo.app) "/hello"
      (delete "docs" Demo.opt_out) Demo.start.
Proof.
  apply (falsy_descriptor_skips_docs Demo.chalice_route Demo.build_operations
    Demo.spec_path (Demo.plugin true) (ChaliceRoute Demo.app) "/hello"
    Demo.opt_out (VBool false) ["POST"; "Get"] Demo.start);
    [vm_compute; reflexivity | reflexivity | reflexivity
    | vm_compute; reflexivity].
Defined.

Lemma non_docs_descriptor_raises_witness :
  Demo.call_route (Demo.app_route false) "/hello" Demo.string_docs Demo.start =
    (Raise AttributeError, Demo.start).
Proof.
  apply (non_docs_descriptor_raises Demo.chalice_route Demo.build_operations
    Demo.spec_path (Demo.plugin false) (ChaliceRoute Demo.app) "/hello"
    Demo.string_docs (VStr "post") ["POST"; "Get"] Demo.start);
    [vm_compute; reflexivity | reflexivity | reflexivity
    | vm_compute; reflexivity].
Defined.

Lemma bad_methods_raise_first_witness :
  Demo.call_route (Demo.app_route true) "/hello" Demo.none_methods Demo.start =
    (Raise TypeError, Demo.start).
Proof.
  apply (bad_methods_raise_first Demo.chalice_route Demo.build_operations
    Demo.spec_path (Demo.plugin true) (ChaliceRoute Demo.app) "/hello"
    Demo.none_methods TypeError Demo.start).
  vm_compute; reflexivity.
Defined.

Lemma conversion_failure_stops_route_witness :
  call_route Demo.chalice_route Demo.failing_build_operations Demo.spec_path
    (Demo.app_route false) "/hello" Demo.with_docs Demo.start =
    (Raise (External 1),
     mkState (options Demo.start) (heap Demo.start) tt
       (trace Demo.start ++ [BuildOperations Demo.post_docs (PyStr.lower <$> ["post"])])).
Proof.
  apply (conversion_failure_stops_route Demo.chalice_route
    Demo.failing_build_operations Demo.spec_path (Demo.plugin false)
    (ChaliceRoute Demo.app) "/hello" Demo.with_docs Demo.post_docs ["post"]
    (External 1) tt Demo.start);
    [vm_compute; reflexivity | vm_compute; reflexivity | reflexivity].
Defined.

Lemma spec_path_failure_stops_route_witness :
  call_route Demo.chalice_route Demo.build_operations Demo.failing_spec_path
    (Demo.app_route false) "/hello" Demo.with_docs Demo.start =
    (Raise (External 2),
     mkState (options Demo.start) (heap Demo.start) tt
       (trace Demo.start ++
          [BuildOperations Demo.post_docs (PyStr.lower <$> ["post"]);
           SpecPath "/hello" (PyStr.lower <$> ["post"]) (summary Demo.post_docs)])).
Proof.
  apply (spec_path_failure_stops_route Demo.chalice_route
    Demo.build_operations Demo.failing_spec_path (Demo.plugin false)
    (ChaliceRoute Demo.app) "/hello" Demo.with_docs Demo.post_docs ["post"]
    (PyStr.lower <$> ["post"]) (External 2) tt tt Demo.start);
    [vm_compute; reflexivity | vm_compute; reflexivity
    | reflexivity | reflexivity].
Defined.

Lemma original_failure_keeps_docs_witness :
  let res := call_route Demo.failing_chalice_route Demo.build_operations
               Demo.spec_path (Demo.app_route false) "/hello" Demo.with_docs
               Demo.start in
  fst res = Raise (External 3) /\
  spec_entries (trace (snd res)) = [("/hello", ["post"], Some "Create an item")].
Proof.
  intros res.
  assert (Hentries :
    spec_entries (trace (snd (document Demo.build_operations Demo.spec_path
      (Demo.plugin false) "/hello" (PyDict.get "docs" VNone Demo.with_docs)
      (delete "docs" Demo.with_docs) Demo.start))) =
    [("/hello", ["post"], Some "Create an item")]) by (vm_compute; reflexivity).
  destruct (original_failure_keeps_docs Demo.failing_chalice_route
    Demo.build_operations Demo.spec_path (Demo.plugin false) Demo.app "/hello"
    Demo.with_docs (External 3) tt Demo.start
    (snd (document Demo.build_operations Demo.spec_path
      (Demo.plugin false) "/hello" (PyDict.get "docs" VNone Demo.with_docs)
      (delete "docs" Demo.with_docs) Demo.start)))
    as (Hres & _ & Hkeep); [vm_compute; reflexivity | reflexivity |].
  split; [exact Hres|]. exact (eq_trans Hkeep Hentries).
Defined.

Lemma double_install_documents_twice_witness :
  spec_entries (new_events Demo.start
    (snd (Demo.call_route (Demo.twice_route true true) "/hello" Demo.mixed_case
            Demo.start))) =
    [("/hello", ["post"; "get"], None); ("/hello", ["post"; "get"], None)].
Proof.
  assert (Hdocs : PyDict.get "docs" VNone Demo.mixed_case = VNone)
    by (vm_compute; reflexivity).
  assert (Hdecl : declares Demo.mixed_case ["POST"; "Get"])
    by (vm_compute; reflexivity).
  exact (f_equal spec_entries
    (double_install_documents_twice Demo.chalice_route
       Demo.build_operations Demo.spec_path (Demo.plugin true) (Demo.plugin true)
       Demo.app "/hello" Demo.mixed_case ["POST"; "Get"]
       ["post"; "get"] ["post"; "get"] tt tt tt tt Demo.start
       eq_refl eq_refl Hdocs Hdecl eq_refl eq_refl eq_refl eq_refl)).
Defined.

Lemma init_spec_failure_changes_no_object_witness :
  fst (Demo.init_spec (Demo.plugin true) Demo.misconfigured) =
    Raise AttributeError /\
  heap (snd (Demo.init_spec (Demo.plugin true) Demo.misconfigured)) =
    heap Demo.misconfigured.
Proof.
  assert (H : fst (Demo.init_spec (Demo.plugin true) Demo.misconfigured) =
              Raise AttributeError) by (vm_compute; reflexivity).
  split; [exact H|].
  exact (proj1 (init_spec_failure_changes_no_object (Demo.plugin true)
    AttributeError Demo.misconfigured H)).
Defined.

Lemma init_spec_consumes_bad_reference_witness :
  Demo.init_spec (Demo.plugin true) Demo.misconfigured =
    (Raise AttributeError,
     mkState (delete "chalice_app" (options Demo.misconfigured))
       (heap Demo.misconfigured) (world Demo.misconfigured)
       (trace Demo.misconfigured)).
Proof.
  apply (init_spec_consumes_bad_reference (Demo.plugin true) (VRef Demo.bp)
    Demo.misconfigured); [vm_compute; reflexivity|].
  intros l r g Hl. injection Hl as <-. vm_compute. discriminate.
Defined.

Lemma init_spec_touches_only_app_witness :
  options (Demo.installed true) !! "chalice_app" = None /\
  options (snd (Demo.init_spec (Demo.plugin true) Demo.misconfigured)) !! "title" =
    options Demo.misconfigured !! "title" /\
  heap (snd (Demo.init_spec (Demo.plugin true) Demo.start)) !! Demo.bp =
    heap Demo.start !! Demo.bp.
Proof.
  split; [vm_compute; reflexivity|]. split.
  - apply (proj1 (init_spec_touches_only_app (Demo.plugin true)
      Demo.misconfigured) "title"). discriminate.
  - apply (proj1 (proj2 (init_spec_touches_only_app (Demo.plugin true)
      Demo.start)) Demo.bp). vm_compute. discriminate.
Defined.

Lemma installed_methods_intercept_witness :
  Demo.invoke_route (VRef Demo.app) "/hello" Demo.with_docs (Demo.installed true) =
    Demo.call_route (Demo.app_route true) "/hello" Demo.with_docs
      (Demo.installed true).
Proof.
  refine (proj1 (installed_methods_intercept Demo.chalice_route
    Demo.chalice_register_blueprint Demo.build_operations Demo.spec_path
    (Demo.plugin true) Demo.app (ChaliceRoute Demo.app)
    (ChaliceRegisterBlueprint Demo.app) Demo.start _ _) "/hello" Demo.with_docs);
    vm_compute; reflexivity.
Defined.

Lemma unregistered_blueprint_bypasses_witness :
  new_events (Demo.installed true)
    (snd (Demo.invoke_route (VRef Demo.bp) "/items" Demo.with_docs
            (Demo.installed true))) =
    [CallRoute Demo.bp "/items" Demo.with_docs].
Proof.
  refine (unregistered_blueprint_bypasses Demo.chalice_route
    Demo.build_operations Demo.spec_path (Demo.plugin true) Demo.bp "/items"
    Demo.with_docs Demo.start _ _).
  - vm_compute. discriminate.
  - vm_compute; reflexivity.
Defined.

Lemma register_blueprint_delegates_witness :
  new_events (Demo.installed true) (Demo.registered None) =
    [CallRegisterBlueprint Demo.app Demo.bp None None] /\
  heap (Demo.registered None) =
    <[Demo.bp := Blueprint (InnerRoute None (Demo.app_route true))]>
      (heap (Demo.installed true)).
Proof.
  assert (Hb : heap (Demo.installed true) !! Demo.bp =
               Some (Blueprint (ChaliceRoute Demo.bp)))
    by (vm_compute; reflexivity).
  destruct (register_blueprint_delegates Demo.chalice_register_blueprint
    (Demo.app_route true) Demo.app Demo.bp (ChaliceRoute Demo.bp) None None
    (Demo.installed true) Hb) as (_ & _ & Hnew & _ & Hheap).
  split; [exact Hnew | exact Hheap].
Defined.

Lemma reregistration_replaces_prefix_witness :
  let g := Demo.app_register_blueprint true in
  let st1 := Demo.registered None in
  let st2 := snd (call_register_blueprint Demo.chalice_register_blueprint g
                    (VRef Demo.bp) None (Some "/v2") st1) in
  Demo.invoke_route (VRef Demo.bp) "/items" Demo.with_docs st2 =
    Demo.call_route (Demo.app_route true) ("/v2" ++ "/items") Demo.with_docs st2.
Proof.
  refine (reregistration_replaces_prefix Demo.chalice_route
    Demo.chalice_register_blueprint Demo.build_operations Demo.spec_path
    (Demo.app_route true) Demo.app Demo.bp (ChaliceRoute Demo.bp) None None
    None "/v2" "/items" Demo.with_docs (Demo.installed true) _).
  vm_compute; reflexivity.
Defined.

Lemma blueprint_routes_reach_app_witness :
  let st' := Demo.registered (Some "/v1") in
  let st'' := snd (Demo.invoke_route (VRef Demo.bp) "/items" Demo.with_docs st') in
  let kw : gmap string value := {["methods" := VList [VStr "post"]]} in
  (Demo.app, "/v1/items", kw) ∈ route_calls (new_events st' st'') /\
  Demo.app = Demo.app /\ kw = delete "docs" Demo.with_docs.
Proof.
  intros st' st'' kw.
  assert (Hb : heap (Demo.installed true) !! Demo.bp =
               Some (Blueprint (ChaliceRoute Demo.bp)))
    by (vm_compute; reflexivity).
  assert (Hin : (Demo.app, "/v1/items", kw) ∈ route_calls (new_events st' st''))
    by (vm_compute; constructor).
  split; [exact Hin|].
  exact (blueprint_routes_reach_app Demo.chalice_route
    Demo.chalice_register_blueprint Demo.build_operations Demo.spec_path
    (Demo.plugin true) Demo.app Demo.bp (ChaliceRoute Demo.bp) None
    (Some "/v1") "/items" Demo.with_docs (Demo.installed true) Hb
    Demo.app "/v1/items" kw Hin).
Defined.

Lemma default_method_not_forwarded_witness :
  let st2 := snd (Demo.call_route (Demo.app_route true) "/hello"
                    Demo.no_options Demo.start) in
  BuildOperations (Docs_of (default_operations ["get"])) ["get"] ∈
    new_events Demo.start st2 /\
  (Demo.app, "/hello", Demo.no_options) ∈ route_calls (new_events Demo.start st2) /\
  ["get"] = ["get"] /\
  Demo.no_options !! "methods" = None.
Proof.
  intros st2.
  assert (Hms : Demo.no_options !! "methods" = None) by reflexivity.
  assert (Hev : BuildOperations (Docs_of (default_operations ["get"])) ["get"] ∈
                  new_events Demo.start st2) by (vm_compute; constructor).
  assert (Hin : (Demo.app, "/hello", Demo.no_options) ∈
                  route_calls (new_events Demo.start st2))
    by (vm_compute; constructor).
  destruct (default_method_not_forwarded Demo.chalice_route
    Demo.build_operations Demo.spec_path (Demo.plugin true) Demo.app "/hello"
    Demo.no_options Demo.start Hms) as [Hdoc Hfwd].
  split; [exact Hev|]. split; [exact Hin|].
  split; [exact (Hdoc _ _ Hev) | exact (Hfwd _ _ _ Hin)].
Defined.

Lemma string_methods_are_split_witness :
  lower_methods Demo.string_methods = Ok ["g"; "e"; "t"].
Proof.
  exact (string_methods_are_split Demo.string_methods "GET" eq_refl).
Defined.


Lemma default_operations_ignore_duplicates_witness :
  default_operations ["get"; "post"; "get"] = default_operations ["post"; "get"].
Proof.
  apply default_operations_ignore_duplicates. intros k.
  rewrite !elem_of_cons. tauto.
Defined.
